(** * watcher-2.0: the DOM analyzer script [dom_analysis_pv_to_atc.py]

    A shallow embedding of the three functions of the script
    ([normalize_file_name], [wait_for_dom_stability], [main]) and the
    properties of them that the specification states.

    Modelling conventions.
    - A Python [str] is the list of its Unicode code points ([list N]), so
      that [len] is [length] and slicing is [take]/[drop].
    - A Python [float] is the rational number it denotes ([Q]); [a // b] is
      the floor of the exact quotient, as CPython computes it whenever that
      floor is representable.  Infinities and NaN are outside the model.
    - Effects (standard output, the file system, the calls made on the
      Playwright page, the time slept) are threaded through a [World]
      record by a state-and-exception monad.  [os.makedirs] and the start
      of the browser session are modelled where they succeed.
    - What the script takes from other packages (the JSON codec, the HTML
      sanitizer, the text-generation service) is a record of functions,
      [Collaborators]; theorems hold for every such record, examples are
      run with a reference one, and what is said of serializing a report
      again is said of the reference JSON codec. *)

From Stdlib Require Import ZArith QArith Qround Lia String Ascii List DecimalString.
From Stdlib Require DecimalPos DecimalFacts.
From stdpp Require Import base decidable list gmap.

Open Scope Z_scope.

(* ===================================================================== *)
(** * Python strings *)
(* ===================================================================== *)

Abbreviation str := (list N) (only parsing).

(** A literal of the source, as a [str].  The literals of the script are
    ASCII, so a byte is a code point. *)
Definition lit (s : string) : str :=
  map N_of_ascii (list_ascii_of_string s).

(** [s.startswith(p)]. *)
Fixpoint starts_with (p s : str) : bool :=
  match p, s with
  | [], _ => true
  | _ :: _, [] => false
  | a :: p', b :: s' => if N.eqb a b then starts_with p' s' else false
  end.

(** The scan of [s.replace(old, new)] for a non-empty [old]: left to right,
    non-overlapping.  [skip] counts the characters of a match that are still
    to be dropped. *)
Fixpoint replace_from (old new : str) (skip : nat) (s : str) : str :=
  match s with
  | [] => []
  | c :: s' =>
      match skip with
      | S k => replace_from old new k s'
      | O =>
          if starts_with old s
          then new ++ replace_from old new (length old - 1) s'
          else c :: replace_from old new 0 s'
      end
  end.

(** [s.replace(old, new)].  With an empty [old] Python puts [new] before
    every character and at the end. *)
Definition replace (old new s : str) : str :=
  match old with
  | [] => new ++ concat (map (fun c => c :: new) s)
  | _ :: _ => replace_from old new 0 s
  end.

(** [sep.join(parts)]. *)
Fixpoint join (sep : str) (parts : list str) : str :=
  match parts with
  | [] => []
  | [p] => p
  | p :: rest => p ++ sep ++ join sep rest
  end.

(** The decimal spelling of a natural number, as [str(n)] gives it. *)
Definition str_of_nat (n : nat) : str :=
  lit (NilEmpty.string_of_uint (Nat.to_uint n)).

(** [s.find(pat)] as a split: the text before the leftmost occurrence of
    [pat] and the text after it. *)
Fixpoint find_split (pat s : str) : option (list N * list N) :=
  if starts_with pat s then Some ([], drop (length pat) s)
  else match s with
       | [] => None
       | c :: s' =>
           match find_split pat s' with
           | Some (before, after) => Some (c :: before, after)
           | None => None
           end
       end.

(** [c.isspace()]: the code points Python counts as white space. *)
Definition isspace (c : N) : bool :=
  ((9 <=? c) && (c <=? 13) || (28 <=? c) && (c <=? 32) ||
   (c =? 133) || (c =? 160) || (c =? 5760) ||
   (8192 <=? c) && (c <=? 8202) || (c =? 8232) || (c =? 8233) ||
   (c =? 8239) || (c =? 8287) || (c =? 12288))%N.

Fixpoint lstrip (s : str) : str :=
  match s with
  | [] => []
  | c :: s' => if isspace c then lstrip s' else s
  end.

Definition rstrip (s : str) : str := rev (lstrip (rev s)).

(** [s.strip()]. *)
Definition strip (s : str) : str := rstrip (lstrip s).

(** [re.search(r"```json(.*?)```", text, flags=re.DOTALL)], as its group 1:
    the text between the leftmost [```json] and the first [```] after it.
    (When the leftmost opening fence has no closing fence after it, no later
    one has, so the search fails.) *)
Definition search_fenced_json (text : str) : option (list N) :=
  match find_split (lit "```json") text with
  | Some (_, rest) =>
      match find_split (lit "```") rest with
      | Some (group1, _) => Some group1
      | None => None
      end
  | None => None
  end.

(** The directory a path names a file in: its spelling up to the last
    slash.  Paths are identified with their spelling. *)
Fixpoint parent_dir (path : str) : str :=
  match path with
  | [] => []
  | c :: rest =>
      if existsb (N.eqb 47) rest then c :: parent_dir rest else []
  end.

(** The proper ancestors of a path, nearest last: its spellings up to each
    slash. *)
Fixpoint ancestors (seen path : str) : list (list N) :=
  match path with
  | [] => []
  | c :: rest =>
      if (c =? 47)%N then
        match seen with
        | [] => ancestors (seen ++ [c]) rest
        | _ :: _ => seen :: ancestors (seen ++ [c]) rest
        end
      else ancestors (seen ++ [c]) rest
  end.

(* ===================================================================== *)
(** * [normalize_file_name] (source lines 33-34) *)
(* ===================================================================== *)

Definition normalize_file_name (filename : str) : str :=
  replace (lit "/") []
    (replace (lit "http://") []
       (replace (lit "https://") [] filename)).

(* ===================================================================== *)
(** * The world the script acts on *)
(* ===================================================================== *)

(** The exceptions the modelled statements can raise. *)
Inductive exn : Set :=
| ZeroDivisionError   (* [timeout // check_interval] with a zero interval *)
| ValueError          (* [time.sleep] of a negative length *)
| IndexError          (* [blocks[0]] of an empty response *)
| FileNotFoundError   (* [open(path, "w+")] in a directory that is absent *)
| NotADirectoryError. (* [open(path, "w+")] with a file for a directory *)

Record World : Type := mkWorld {
  stdout : list (list N);        (* the lines printed, oldest first *)
  dirs : gset (list N);          (* the directories that exist, by path *)
  files : gmap (list N) (list N);(* the files written: path to content *)
  page_calls : nat;              (* calls of [page.content()] made so far *)
  slept : list Q                 (* arguments of [time.sleep], oldest first *)
}.

(** The live page: the markup that the [k]-th call of [page.content()]
    returns (calls are counted from 0). *)
Abbreviation Page := (nat -> list N) (only parsing).

Inductive result (A : Type) : Type :=
| Returned (v : A)
| Raised (e : exn).
Arguments Returned {A} v.
Arguments Raised {A} e.

(** A statement: it runs in a world and returns or raises, leaving a world. *)
Definition M (A : Type) : Type := World -> result A * World.

Definition ret {A : Type} (v : A) : M A := fun w => (Returned v, w).

Definition raise {A : Type} (e : exn) : M A := fun w => (Raised e, w).

Definition bind {A B : Type} (m : M A) (k : A -> M B) : M B :=
  fun w =>
    match m w with
    | (Returned v, w') => k v w'
    | (Raised e, w') => (Raised e, w')
    end.

Declare Scope py_scope.
Delimit Scope py_scope with py.
Notation "x <- m ;; k" := (bind m (fun x => k))
  (at level 100, m at next level, right associativity) : py_scope.
Notation "m ;;; k" := (bind m (fun _ => k))
  (at level 100, right associativity) : py_scope.
Open Scope py_scope.

(** [print(line)]. *)
Definition print (line : str) : M unit :=
  fun w => (Returned tt,
            mkWorld (stdout w ++ [line]) (dirs w) (files w) (page_calls w) (slept w)).

(** [page.content()]. *)
Definition page_content (page : Page) : M (list N) :=
  fun w => (Returned (page (page_calls w)),
            mkWorld (stdout w) (dirs w) (files w) (S (page_calls w)) (slept w)).

(** [time.sleep(secs)]: a negative length is a [ValueError]. *)
Definition sleep (secs : Q) : M unit :=
  fun w =>
    if Qlt_le_dec secs 0 then (Raised ValueError, w)
    else (Returned tt,
          mkWorld (stdout w) (dirs w) (files w) (page_calls w) (slept w ++ [secs])).

(** [os.path.exists(path)]. *)
Definition path_exists (path : str) : M bool :=
  fun w => (Returned (bool_decide (path ∈ dirs w)
                      || bool_decide (is_Some (files w !! path))), w).

(** [os.makedirs(path)]: the directory and every missing ancestor.  The
    call is modelled where it succeeds: the [OSError]s of the operating
    system (a name that is too long, a file standing at one of the
    directories, a directory that is there under another spelling) are
    outside the model. *)
Definition makedirs (path : str) : M unit :=
  fun w => (Returned tt,
            mkWorld (stdout w)
              ({[ path ]} ∪ list_to_set (ancestors [] path) ∪ dirs w)
              (files w) (page_calls w) (slept w)).

(** [with open(path, "w+") as f: f.write(content)]: the file is created or
    truncated; its directory has to exist.  Where it does not, [open] raises
    [NotADirectoryError] when a file stands at one of the directories of the
    path, and [FileNotFoundError] otherwise. *)
Definition open_write (path content : str) : M unit :=
  fun w =>
    if bool_decide (parent_dir path ∈ dirs w)
    then (Returned tt,
          mkWorld (stdout w) (dirs w) (<[ path := content ]> (files w))
            (page_calls w) (slept w))
    else if existsb (fun dir => bool_decide (is_Some (files w !! dir)))
              (ancestors [] path)
    then (Raised NotADirectoryError, w)
    else (Raised FileNotFoundError, w).

(** [int(a // b)]. *)
Definition int_floordiv (a b : Q) : M Z :=
  if Qeq_bool b 0 then raise ZeroDivisionError
  else ret (Qfloor (a / b)).

(* ===================================================================== *)
(** * [wait_for_dom_stability] (source lines 36-59) *)
(* ===================================================================== *)

(** The [for _ in range(max_checks)] loop, [n] iterations left.  The result
    says how the loop ended: [true] when its [return] ran, [false] when the
    range was exhausted. *)
Fixpoint stability_loop (page : Page) (check_interval : Q)
    (stable_iterations : Z) (n : nat) (last_size stable_count : Z) : M bool :=
  match n with
  | O => ret false
  | S n' =>
      html <- page_content page ;;
      let size := Z.of_nat (length html) in
      if size =? last_size then
        let stable_count := stable_count + 1 in
        if stable_count >=? stable_iterations then
          print (lit "DOM has stabilized.") ;;;
          ret true
        else
          sleep check_interval ;;;
          stability_loop page check_interval stable_iterations n'
            last_size stable_count
      else
        sleep check_interval ;;;
        stability_loop page check_interval stable_iterations n' size 0
  end.

Definition wait_for_dom_stability (page : Page) (check_interval : Q)
    (stable_iterations : Z) (timeout : Q) : M unit :=
  max_checks <- int_floordiv timeout check_interval ;;
  returned <- stability_loop page check_interval stable_iterations
                (Z.to_nat max_checks) (-1) 0 ;;
  if returned then ret tt
  else print (lit "Warning: DOM may not be fully stable after timeout.").


(* ===================================================================== *)
(** * What [main] takes from other packages *)
(* ===================================================================== *)

#[local] Unset Elimination Schemes.
(** The values [json.loads] returns: [None], [bool], [int], [float] (by the
    decimal [m * 10^e] that denotes it), [str], [list] and [dict] (members
    in insertion order, keys distinct). *)
Inductive json : Type :=
| JNull
| JBool (b : bool)
| JInt (n : Z)
| JFloat (m e : Z)
| JString (s : list N)
| JArray (items : list json)
| JObject (members : list (list N * json)).
#[local] Set Elimination Schemes.

(** A [TextBlock] of the service's response: its [.text] and what
    [print(block)] shows of it. *)
Record TextBlock : Type := mkTextBlock {
  text : list N;
  block_repr : list N
}.

Record Collaborators : Type := mkCollaborators {
  (** [json.loads(s)]; [None] stands for [json.JSONDecodeError]. *)
  json_loads : list N -> option json;
  (** [json.dumps(data, indent=2)]. *)
  json_dumps : json -> list N;
  (** [str(soup)] once BeautifulSoup has parsed the markup and the
      [script], [style], [nav], [footer] and [header] tags are decomposed. *)
  sanitize : list N -> list N;
  (** [client.messages.create(...).content], by the user message sent (the
      system text, model and sampling parameters are constants). *)
  create_message : list N -> list TextBlock
}.

(* ===================================================================== *)
(** * [main] (source lines 61-308) *)
(* ===================================================================== *)

Definition default_url : str := lit "https://www.grass-direct.co.uk/".

Definition default_file_name : str := lit "www.grass-direct.co.uk.json".

(** ["../selectors/{}".format(name)]. *)
Definition selectors_dir (name : str) : str := lit "../selectors/" ++ name.

(** ["../selectors/{}/pv_to_atc.json".format(name)]. *)
Definition report_path (name : str) : str :=
  lit "../selectors/" ++ name ++ lit "/pv_to_atc.json".

(** [sys.argv[1] if len(sys.argv) > 1 else fallback]. *)
Definition argv1_or (argv : list (list N)) (fallback : str) : str :=
  match argv with
  | _ :: a :: _ => a
  | _ => fallback
  end.

(** Lines 292-294: the name of the directory the report goes to. *)
Definition report_file_name (argv : list (list N)) : str :=
  let file_name := argv1_or argv default_file_name in
  if bool_decide (file_name = default_file_name) then file_name
  else normalize_file_name file_name.

(** [blocks[0]]. *)
Definition first_block (blocks : list TextBlock) : M TextBlock :=
  match blocks with
  | b :: _ => ret b
  | [] => raise IndexError
  end.

(** Lines 73-105: the browser session.  The page is loaded, the detector
    waits for it to settle, the markup is read once more and cleaned.
    Starting Playwright, launching the browser, opening the page and
    [page.goto] (lines 74-85) are modelled where they succeed: they act on
    nothing the [World] records, and a session in which one of them raises
    is outside the model. *)
Definition main_browse (C : Collaborators) (target_url : str) (page : Page)
    : M (list N) :=
  print (lit "Navigating to: " ++ target_url) ;;;
  wait_for_dom_stability page (1 # 2) 3 5 ;;;
  html <- page_content page ;;
  print (lit "HTML length: " ++ str_of_nat (length html)) ;;;
  let cleaned_html := sanitize C html in
  print (lit "Cleaned HTML length: " ++ str_of_nat (length cleaned_html)) ;;;
  ret cleaned_html.

(** Lines 274-308: what is done with the response. *)
Definition main_report (C : Collaborators) (argv : list (list N))
    (blocks : list TextBlock) : M unit :=
  let combined_text := join [10%N] (map text blocks) in
  print (lit "<class 'list'> " ++ str_of_nat (length blocks)) ;;;
  implicit_json <- first_block blocks ;;
  match search_fenced_json combined_text with
  | Some group1 =>
      let json_str := strip group1 in
      match json_loads C json_str with
      | Some data =>
          print (lit "=== PARSED JSON ===") ;;;
          print (json_dumps C data) ;;;
          let file_name := report_file_name argv in
          print (lit "=== WRITING JSON TO FILE " ++ file_name ++ lit " ===") ;;;
          open_write (report_path file_name) json_str
      | None =>
          print (lit "=== RAW TEXT (JSON decode error) ===") ;;;
          print json_str
      end
  | None =>
      print (lit "=== RAW TEXT ===") ;;;
      print combined_text ;;;
      print (lit "=== RAW JSON ===") ;;;
      print (block_repr implicit_json)
  end.

Definition main (C : Collaborators) (argv : list (list N)) (page : Page)
    : M unit :=
  let target_url := argv1_or argv default_url in
  print (lit "Target URL: " ++ target_url) ;;;
  present <- path_exists (selectors_dir (normalize_file_name target_url)) ;;
  (if present then ret tt
   else makedirs (selectors_dir (normalize_file_name target_url))) ;;;
  cleaned_html <- main_browse C target_url page ;;
  let user_message :=
    lit "Here is the sanitized HTML for " ++ target_url ++ lit ":"
      ++ [10%N; 10%N] ++ cleaned_html in
  let blocks := create_message C user_message in
  main_report C argv blocks.

(* ===================================================================== *)
(** * A reference JSON codec *)
(* ===================================================================== *)

(** A reader of the JSON grammar (RFC 8259) that returns what [json.loads]
    returns on the same text, and a writer laid out like
    [json.dumps(data, indent=2)].  They are used to run the script on
    concrete responses, and to say of a codec that it reads what it writes.
    Two departures from CPython: a number with a
    fraction or an exponent is kept as the decimal it spells where CPython
    rounds it to a double, and the constants [NaN] and [Infinity], which are
    no JSON, are not read. *)
Module RefJson.

Definition is_ws (c : N) : bool :=
  ((c =? 32) || (c =? 9) || (c =? 10) || (c =? 13))%N.

Fixpoint skip_ws (s : str) : str :=
  match s with
  | [] => []
  | c :: s' => if is_ws c then skip_ws s' else s
  end.

Definition is_digit (c : N) : bool := ((48 <=? c) && (c <=? 57))%N.

(** The longest run of digits at the head of [s], and the rest. *)
Fixpoint span_digits (s : str) : list N * list N :=
  match s with
  | [] => ([], [])
  | c :: s' =>
      if is_digit c
      then let '(ds, rest) := span_digits s' in (c :: ds, rest)
      else ([], s)
  end.

Definition digits_value (ds : str) : Z :=
  fold_left (fun acc d => 10 * acc + (Z.of_N d - 48)) ds 0.

Definition hex_value (c : N) : option N :=
  if is_digit c then Some (c - 48)%N
  else if ((97 <=? c) && (c <=? 102))%N then Some (c - 87)%N
  else if ((65 <=? c) && (c <=? 70))%N then Some (c - 55)%N
  else None.

Definition hex4 (a b c d : N) : option N :=
  match hex_value a, hex_value b, hex_value c, hex_value d with
  | Some x, Some y, Some z, Some t => Some (((x * 16 + y) * 16 + z) * 16 + t)%N
  | _, _, _, _ => None
  end.

(** The characters of a string up to its closing quote, escapes decoded;
    [acc] holds what was read, newest first. *)
Fixpoint read_string (s acc : str) : option (list N * list N) :=
  match s with
  | [] => None
  | c :: rest =>
      if (c =? 34)%N then Some (rev acc, rest)
      else if (c =? 92)%N then
        match rest with
        | [] => None
        | e :: rest1 =>
            if (e =? 34)%N then read_string rest1 (34%N :: acc)
            else if (e =? 92)%N then read_string rest1 (92%N :: acc)
            else if (e =? 47)%N then read_string rest1 (47%N :: acc)
            else if (e =? 98)%N then read_string rest1 (8%N :: acc)
            else if (e =? 102)%N then read_string rest1 (12%N :: acc)
            else if (e =? 110)%N then read_string rest1 (10%N :: acc)
            else if (e =? 114)%N then read_string rest1 (13%N :: acc)
            else if (e =? 116)%N then read_string rest1 (9%N :: acc)
            else if (e =? 117)%N then
              match rest1 with
              | a :: b :: c' :: d :: rest2 =>
                  match hex4 a b c' d with
                  | None => None
                  | Some hi =>
                      match rest2 with
                      | 92%N :: 117%N :: a2 :: b2 :: c2 :: d2 :: rest3 =>
                          match hex4 a2 b2 c2 d2 with
                          | Some lo =>
                              if ((55296 <=? hi) && (hi <=? 56319) &&
                                  (56320 <=? lo) && (lo <=? 57343))%N
                              then read_string rest3
                                     ((65536 + (hi - 55296) * 1024
                                       + (lo - 56320))%N :: acc)
                              else read_string rest2 (hi :: acc)
                          | None => read_string rest2 (hi :: acc)
                          end
                      | _ => read_string rest2 (hi :: acc)
                      end
                  end
              | _ => None
              end
            else None
        end
      else if (c <? 32)%N then None
      else read_string rest (c :: acc)
  end.

(** A number at the head of [s] (the sign is read by the caller). *)
Definition read_unsigned (s : str) : option (json * (Z -> json) * list N) :=
  let '(ds, rest) := span_digits s in
  match ds with
  | [] => None
  | d :: ds' =>
      let '(int_digits, rest) :=
        if (d =? 48)%N then ([d], ds' ++ rest) else (ds, rest) in
      let '(frac, rest1) :=
        match rest with
        | 46%N :: r =>
            match span_digits r with
            | ([], _) => ([], rest)
            | (fs, r') => (fs, r')
            end
        | _ => ([], rest)
        end in
      let '(has_exp, ex, rest2) :=
        match rest1 with
        | c :: r =>
            if ((c =? 101) || (c =? 69))%N then
              let '(sign, r1) :=
                match r with
                | 43%N :: r' => (1, r')
                | 45%N :: r' => (-1, r')
                | _ => (1, r)
                end in
              match span_digits r1 with
              | ([], _) => (false, 0, rest1)
              | (es, r') => (true, sign * digits_value es, r')
              end
            else (false, 0, rest1)
        | [] => (false, 0, rest1)
        end in
      let m := digits_value (int_digits ++ frac) in
      let e := ex - Z.of_nat (length frac) in
      match frac, has_exp with
      | [], false => Some (JInt m, fun sg => JInt (sg * m), rest2)
      | _, _ => Some (JFloat m e, fun sg => JFloat (sg * m) e, rest2)
      end
  end.

Definition read_number (s : str) : option (json * list N) :=
  match s with
  | 45%N :: s' =>
      match read_unsigned s' with
      | Some (_, signed, rest) => Some (signed (-1), rest)
      | None => None
      end
  | _ =>
      match read_unsigned s with
      | Some (v, _, rest) => Some (v, rest)
      | None => None
      end
  end.

(** [d[key] = value] on the members of a dict. *)
Fixpoint dict_set (key : str) (value : json) (ms : list (list N * json))
    : list (list N * json) :=
  match ms with
  | [] => [(key, value)]
  | (k, v) :: ms' =>
      if bool_decide (k = key) then (k, value) :: ms'
      else (k, v) :: dict_set key value ms'
  end.

(** The recursive-descent reader.  [read_value] expects a value at the head
    of the text, [read_items] the next item of an array, [read_members] the
    opening quote of the next key of an object; each call spends one unit
    of [fuel]. *)
Fixpoint read_value (fuel : nat) (s : str) : option (json * list N) :=
  match fuel with
  | O => None
  | S fuel' =>
      match s with
      | [] => None
      | c :: rest =>
          if (c =? 34)%N then
            match read_string rest [] with
            | Some (x, rest') => Some (JString x, rest')
            | None => None
            end
          else if (c =? 123)%N then
            match skip_ws rest with
            | 125%N :: rest' => Some (JObject [], rest')
            | rest' =>
                match read_members fuel' rest' [] with
                | Some (ms, rest'') => Some (JObject ms, rest'')
                | None => None
                end
            end
          else if (c =? 91)%N then
            match skip_ws rest with
            | 93%N :: rest' => Some (JArray [], rest')
            | rest' =>
                match read_items fuel' rest' [] with
                | Some (xs, rest'') => Some (JArray xs, rest'')
                | None => None
                end
            end
          else if starts_with (lit "null") s then
            Some (JNull, drop 4 s)
          else if starts_with (lit "true") s then
            Some (JBool true, drop 4 s)
          else if starts_with (lit "false") s then
            Some (JBool false, drop 5 s)
          else read_number s
      end
  end
with read_items (fuel : nat) (s : str) (acc : list json)
    : option (list json * list N) :=
  match fuel with
  | O => None
  | S fuel' =>
      match read_value fuel' s with
      | None => None
      | Some (v, rest) =>
          match skip_ws rest with
          | 44%N :: rest' => read_items fuel' (skip_ws rest') (acc ++ [v])
          | 93%N :: rest' => Some (acc ++ [v], rest')
          | _ => None
          end
      end
  end
with read_members (fuel : nat) (s : str) (acc : list (list N * json))
    : option (list (list N * json) * list N) :=
  match fuel with
  | O => None
  | S fuel' =>
      match s with
      | 34%N :: rest =>
          match read_string rest [] with
          | None => None
          | Some (key, rest1) =>
              match skip_ws rest1 with
              | 58%N :: rest2 =>
                  match read_value fuel' (skip_ws rest2) with
                  | None => None
                  | Some (v, rest3) =>
                      match skip_ws rest3 with
                      | 44%N :: rest4 =>
                          read_members fuel' (skip_ws rest4) (dict_set key v acc)
                      | 125%N :: rest4 => Some (dict_set key v acc, rest4)
                      | _ => None
                      end
                  end
              | _ => None
              end
          end
      | _ => None
      end
  end.

(** The reader: one value, white space around it, nothing else. *)
Definition loads (s : str) : option json :=
  match read_value (2 * length s + 2) (skip_ws s) with
  | Some (v, rest) =>
      match skip_ws rest with
      | [] => Some v
      | _ :: _ => None
      end
  | None => None
  end.

Definition str_of_Z (z : Z) : str :=
  lit (NilEmpty.string_of_int (Z.to_int z)).

Definition hex_digit (n : N) : N :=
  if (n <? 10)%N then (48 + n)%N else (87 + n)%N.

(** [\uXXXX]. *)
Definition u_escape (c : N) : str :=
  [92%N; 117%N; hex_digit (c / 4096 mod 16)%N; hex_digit (c / 256 mod 16)%N;
   hex_digit (c / 16 mod 16)%N; hex_digit (c mod 16)%N].

Definition escape_char (c : N) : str :=
  if (c =? 34)%N then [92%N; 34%N]
  else if (c =? 92)%N then [92%N; 92%N]
  else if (c =? 10)%N then [92%N; 110%N]
  else if (c =? 13)%N then [92%N; 114%N]
  else if (c =? 9)%N then [92%N; 116%N]
  else if (c =? 8)%N then [92%N; 98%N]
  else if (c =? 12)%N then [92%N; 102%N]
  else if ((32 <=? c) && (c <=? 126))%N then [c]
  else if (c <? 65536)%N then u_escape c
  else u_escape (55296 + (c - 65536) / 1024)%N
         ++ u_escape (56320 + (c - 65536) mod 1024)%N.

Definition write_string (x : str) : str :=
  [34%N] ++ concat (map escape_char x) ++ [34%N].

Definition newline_indent (level : nat) : str :=
  10%N :: repeat 32%N (2 * level).

(** The writer, at nesting depth [level]. *)
Fixpoint write_value (level : nat) (v : json) : str :=
  match v with
  | JNull => lit "null"
  | JBool true => lit "true"
  | JBool false => lit "false"
  | JInt n => str_of_Z n
  | JFloat m e => str_of_Z m ++ lit "e" ++ str_of_Z e
  | JString x => write_string x
  | JArray [] => lit "[]"
  | JArray items =>
      lit "[" ++ newline_indent (S level)
        ++ join (lit "," ++ newline_indent (S level))
             (map (write_value (S level)) items)
        ++ newline_indent level ++ lit "]"
  | JObject [] => lit "{}"
  | JObject members =>
      lit "{" ++ newline_indent (S level)
        ++ join (lit "," ++ newline_indent (S level))
             (map (fun kv => write_string (fst kv) ++ lit ": "
                             ++ write_value (S level) (snd kv)) members)
        ++ newline_indent level ++ lit "}"
  end.

Definition dumps (data : json) : str := write_value 0 data.

End RefJson.

(** Collaborators for running the script on a given response: the
    reference codec, a sanitizer that changes nothing, and a service that
    answers [blocks] whatever it is sent. *)
Definition canned (blocks : list TextBlock) : Collaborators :=
  mkCollaborators RefJson.loads RefJson.dumps (fun html => html)
    (fun _ => blocks).

(** A literal with every apostrophe read as a double quote, to spell JSON
    text. *)
Definition jlit (s : string) : str :=
  map (fun c => if (c =? 39)%N then 34%N else c) (lit s).

(** A response of one block with the given text. *)
Definition one_block (t : str) : list TextBlock :=
  [mkTextBlock t (lit "TextBlock(...)")].

(** Lines 281-286: the report the script reads out of a response text
    (the fenced block, stripped, through [json.loads]), if any. *)
Definition candidate (C : Collaborators) (combined_text : str) : option json :=
  match search_fenced_json combined_text with
  | Some group1 => json_loads C (strip group1)
  | None => None
  end.

(** [print(type(blocks), len(blocks))]. *)
Definition count_line (blocks : list TextBlock) : str :=
  lit "<class 'list'> " ++ str_of_nat (length blocks).

(** [print("=== WRITING JSON TO FILE {} ===".format(file_name))]. *)
Definition writing_line (file_name : str) : str :=
  lit "=== WRITING JSON TO FILE " ++ file_name ++ lit " ===".

(** ** Worlds and pages to run the script on *)

(** Nothing printed, no directory, no file, no call made. *)
Definition initial_world : World := mkWorld [] ∅ ∅ 0 [].

(** A page whose first contents have the sizes listed, and size [rest k] at
    every later call [k]. *)
Definition page_of_sizes (sizes : list nat) (rest : nat -> nat)
    : nat -> list N :=
  fun k => repeat 120%N (nth k sizes (rest k)).

Definition stabilized_line : str := lit "DOM has stabilized.".

Definition warning_line : str :=
  lit "Warning: DOM may not be fully stable after timeout.".

(** The scenario of the specification: sizes 100, 150, 150, 150, and then
    150 for ever. *)
Definition scenario_page : nat -> list N :=
  page_of_sizes [100; 150; 150; 150]%nat (fun _ => 150%nat).

(** The same four sizes, and a size that changes at every call after them. *)
Definition restless_page : nat -> list N :=
  page_of_sizes [100; 150; 150; 150]%nat (fun k => (151 + k)%nat).

(** A page whose size grows at every call. *)
Definition growing_page : nat -> list N :=
  page_of_sizes [] (fun k => k).

(** ** Responses to run [main] on *)

Definition script_name : str := lit "dom_analysis_pv_to_atc.py".

Definition shop_url : str := lit "https://shop.example/".

(** A world in which the directory of [shop_url] exists already. *)
Definition prepared_world : World :=
  mkWorld [] {[ selectors_dir (lit "shop.example") ]} ∅ 0 [].

(** A response of one block: prose, the candidate in a fenced block, prose. *)
Definition fenced_response (candidate_text : str) : list TextBlock :=
  one_block (lit "Here is the analysis." ++ [10%N] ++ lit "```json" ++ [10%N]
             ++ candidate_text ++ [10%N] ++ lit "```" ++ [10%N]
             ++ lit "Let me know if you need more.").

(** A candidate without the top-level key [status]. *)
Definition report_without_status : str :=
  jlit "{'url': 'https://shop.example/', 'timestamp': '2025-01-01T00:00:00Z', 'elements': {'hasCookieBanner': false}, 'notes': []}".

(** A candidate whose [elements.cookies.acceptAll.priority] is 7. *)
Definition report_with_priority_7 : str :=
  jlit "{'url': 'https://shop.example/', 'timestamp': '2025-01-01T00:00:00Z', 'status': 'success', 'elements': {'cookies': {'acceptAll': {'elementType': 'cookieAcceptAll', 'selectors': {'primary': '#accept-all', 'secondary': [], 'xpath': ''}, 'location': 'banner', 'priority': 7}}}, 'notes': []}".

(** A candidate whose [elements.cookies.accept] has three empty selector
    fields and the valid priority 1. *)
Definition report_with_empty_selector : str :=
  jlit "{'url': 'https://shop.example/', 'timestamp': '2025-01-01T00:00:00Z', 'status': 'partial', 'elements': {'cookies': {'accept': {'elementType': 'cookieAccept', 'selectors': {'primary': '', 'secondary': [], 'xpath': ''}, 'location': '', 'priority': 1}}}, 'notes': []}".

(** A response whose fenced block is no JSON. *)
Definition malformed_text : str :=
  lit "Sure. ```json {oops ``` That is all.".

(** A response without a fenced block. *)
Definition unfenced_text : str := lit "I could not analyse this page.".

(** [main_report] on a one-block response, for the shop, its directory
    prepared. *)
Definition report_run (blocks : list TextBlock) : result unit * World :=
  main_report (canned blocks) [script_name; shop_url] blocks prepared_world.

(** A candidate that keeps every structural rule of the specification. *)
Definition complete_report : str :=
  jlit "{'url': 'https://www.grass-direct.co.uk/', 'timestamp': '2025-01-01T00:00:00Z', 'status': 'success', 'elements': {'hasCookieBanner': false, 'popups': []}, 'notes': []}".

(** The script run without an argument, on a fresh file system, with a
    response that holds [complete_report] in a fenced block. *)
Definition default_run : result unit * World :=
  main (canned (fenced_response complete_report)) [script_name]
    scenario_page initial_world.

(** The script run for [shop_url], on a fresh file system, with the same
    response. *)
Definition shop_run : result unit * World :=
  main (canned (fenced_response complete_report)) [script_name; shop_url]
    scenario_page initial_world.

(** ** Pages for the further properties *)

(** The scenario with other markup of the same sizes. *)
Definition relabelled_page : nat -> list N :=
  fun k => repeat 121%N (length (scenario_page k)).

(* ===================================================================== *)
(** * The vocabulary of the specification *)
(* ===================================================================== *)

(** ** Samples and runs of equal samples *)

(** The sizes the page shows from call [c0] on: [len(page.content())] at
    call [c0 + j]. *)
Definition sizes_from (page : Page) (c0 : nat) (j : nat) : Z :=
  Z.of_nat (length (page (c0 + j)%nat)).

(** The size seen by the detector's [j]-th sample (from 0) when it starts
    in world [w]. *)
Definition sample (page : Page) (w : World) (j : nat) : Z :=
  sizes_from page (page_calls w) j.

(** The samples [i+1-len .. i] of [s] are [len] equal values: a run of
    [len] consecutive equal values is complete at sample [i]. *)
Definition run_ends_at (s : nat -> Z) (len i : nat) : Prop :=
  (len <= S i)%nat /\ forall j, (S i - len <= j <= i)%nat -> s j = s i.

(** The number of consecutive samples before [i] that sample [i] repeats. *)
Fixpoint streak (s : nat -> Z) (i : nat) : Z :=
  match i with
  | O => 0
  | S i' => if s (S i') =? s i' then streak s i' + 1 else 0
  end.

(** The control flow of [stability_loop] without its effects: the number of
    samples after which its [return] runs, if it does.  [k] samples were
    taken before. *)
Fixpoint settle_after (s : nat -> Z) (stable_iterations : Z) (n k : nat)
    (last_size stable_count : Z) : option nat :=
  match n with
  | O => None
  | S n' =>
      if s k =? last_size then
        if stable_count + 1 >=? stable_iterations then Some (S k)
        else settle_after s stable_iterations n' (S k) last_size
               (stable_count + 1)
      else settle_after s stable_iterations n' (S k) (s k) 0
  end.

(** The number of calls of [page.content()] on record when the detector, as
    [main] calls it on line 88, is done with a page it starts on in world
    [w]: the index of the read of line 91. *)
Definition detector_end (page : Page) (w : World) : nat :=
  page_calls (snd (wait_for_dom_stability page (1 # 2) 3 5 w)).

(** The user message of line 255 in a run of [main] that starts in world
    [w]: the line that names the target URL, an empty line, and the cleaned
    markup of the read of line 91. *)
Definition main_user_message (C : Collaborators) (argv : list (list N))
    (page : Page) (w : World) : str :=
  lit "Here is the sanitized HTML for " ++ argv1_or argv default_url
    ++ lit ":" ++ [10%N; 10%N]
    ++ sanitize C (page (detector_end page w)).

(** ** The structural rules of section 4.2

    Written from the words of the specification, to say what a structural
    violation is.  The script has no counterpart of them. *)

Inductive violation : Type :=
| MissingKey (path : list (list N))
| PriorityOutOfRange (path : list (list N))
| EmptySelectorObject (path : list (list N)).

(** [d.get(key)]. *)
Definition member (key : str) (v : json) : option json :=
  match v with
  | JObject ms =>
      match find (fun kv => bool_decide (fst kv = key)) ms with
      | Some kv => Some (snd kv)
      | None => None
      end
  | _ => None
  end.

Fixpoint at_path (path : list (list N)) (v : json) : option json :=
  match path with
  | [] => Some v
  | key :: path' =>
      match member key v with
      | Some v' => at_path path' v'
      | None => None
      end
  end.

Definition spec_required_keys : list (list N) :=
  map lit ["url"; "timestamp"; "elements"; "notes"; "status"]%string.

(** The places of a report that hold a SelectorObject. *)
Definition spec_selector_paths : list (list (list N)) :=
  map (fun p => map lit ("elements"%string :: p))
    [ ["cookies"; "accept"]; ["cookies"; "decline"]; ["cookies"; "settings"];
      ["cookies"; "acceptAll"]; ["cookies"; "rejectAll"];
      ["product"; "stock"]; ["product"; "price"]; ["product"; "addToCart"];
      ["addtocart"; "button"]; ["addtocart"; "cart"];
      ["checkout"; "button"]; ["checkout"; "cart"] ]%string.

(** [priority] must be an integer from 1 to 5. *)
Definition spec_priority_ok (so : json) : bool :=
  match member (lit "priority") so with
  | Some (JInt n) => (1 <=? n) && (n <=? 5)
  | _ => false
  end.

(** The three selector fields are all empty. *)
Definition spec_selectors_empty (so : json) : bool :=
  match at_path [lit "selectors"; lit "primary"] so,
        at_path [lit "selectors"; lit "secondary"] so,
        at_path [lit "selectors"; lit "xpath"] so with
  | Some (JString []), Some (JArray []), Some (JString []) => true
  | _, _, _ => false
  end.

Definition spec_selector_violations (data : json) (path : list (list N))
    : list violation :=
  match at_path path data with
  | None => []
  | Some so =>
      (if spec_priority_ok so then []
       else [PriorityOutOfRange (path ++ [lit "priority"])])
      ++ (if spec_selectors_empty so then [EmptySelectorObject path] else [])
  end.

(** The violations the specification's [validateReport] is to list. *)
Definition spec_violations (data : json) : list violation :=
  map (fun key => MissingKey [key])
    (filter (fun key => bool_decide (member key data = None))
       spec_required_keys)
  ++ flat_map (spec_selector_violations data) spec_selector_paths.

(* ===================================================================== *)
(** * The text the reference writer lays out *)
(* ===================================================================== *)

(** What is needed to say that the reference reader accepts what the
    reference writer produces. *)
Module Written.
Import RefJson.

(** What may follow a value in the text the writer lays out: nothing, a
    comma or a line break. *)
Definition tail_ok (rest : list N) : Prop :=
  match rest with
  | [] => True
  | c :: _ => c = 44%N \/ c = 10%N
  end.

(** The digits of a decimal number, as characters. *)
Definition decimal_digits (u : Decimal.uint) : list N :=
  lit (NilEmpty.string_of_uint u).

(** A decimal without a leading zero, or zero itself. *)
Definition no_leading_zero (u : Decimal.uint) : Prop :=
  u <> Decimal.Nil /\ forall u', u = Decimal.D0 u' -> u' = Decimal.Nil.

(** What may follow a run of digits for the run to end there. *)
Definition no_digit_ahead (rest : list N) : Prop :=
  match rest with
  | [] => True
  | c :: _ => is_digit c = false
  end.

(** The body of a string as the writer spells it: characters that stand
    for themselves, two-character escapes and [\uXXXX] escapes. *)
Inductive escaped : list N -> Prop :=
| escaped_nil : escaped []
| escaped_plain (c : N) (s : list N) :
    (32 <= c)%N -> c <> 34%N -> c <> 92%N -> escaped s -> escaped (c :: s)
| escaped_short (e : N) (s : list N) :
    In e [34; 92; 47; 98; 102; 110; 114; 116]%N -> escaped s ->
    escaped (92%N :: e :: s)
| escaped_u (a b c d hi : N) (s : list N) :
    hex4 a b c d = Some hi -> escaped s ->
    escaped (92%N :: 117%N :: a :: b :: c :: d :: s).

(** The fuel that reading a written value takes. *)
Fixpoint reading_cost (v : json) : nat :=
  match v with
  | JArray items => S (list_sum (map (fun x => S (reading_cost x)) items))
  | JObject members =>
      S (list_sum (map (fun kv => S (reading_cost (snd kv))) members))
  | _ => 1
  end.

(** The characters a written value can start with. *)
Definition starts_value (c : N) : Prop :=
  In c [110; 116; 102; 34; 91; 123; 45;
        48; 49; 50; 51; 52; 53; 54; 55; 56; 57]%N.

(** The characters a written value can end with. *)
Definition ends_value (c : N) : Prop :=
  In c [108; 101; 34; 93; 125;
        48; 49; 50; 51; 52; 53; 54; 55; 56; 57]%N.

(** A member of an object as the writer lays it out. *)
Definition write_member (level : nat) (kv : list N * json) : list N :=
  write_string (fst kv) ++ lit ": " ++ write_value level (snd kv).

(** A value is read back: from what the writer makes of it at any depth,
    with enough fuel and before anything that may follow a value, the
    reader returns a value and the text that follows. *)
Definition reads_back (v : json) : Prop :=
  forall level rest fuel,
    tail_ok rest -> (reading_cost v <= fuel)%nat ->
    exists v', read_value fuel (write_value level v ++ rest) = Some (v', rest).

End Written.

(* ===================================================================== *)
(** * Properties *)
(* ===================================================================== *)

Section StringFacts.

Lemma starts_with_app (p s : str) :
  starts_with p s = true -> exists t, s = p ++ t.
Proof.
  revert s; induction p as [|a p IH]; intros s H.
  - exists s; reflexivity.
  - destruct s as [|b s]; simpl in H; [discriminate|].
    destruct (N.eqb_spec a b) as [->|]; [|discriminate].
    destruct (IH _ H) as [t ->]. exists t; reflexivity.
Qed.

(** A pattern holding a character that the text lacks never matches. *)
Lemma starts_with_absent (c : N) (p s : str) :
  In c p -> ~ In c s -> starts_with p s = false.
Proof.
  intros Hp Hs. destruct (starts_with p s) eqn:E; [|reflexivity].
  destruct (starts_with_app _ _ E) as [t ->].
  exfalso; apply Hs, in_or_app; left; exact Hp.
Qed.

Lemma replace_from_absent (c : N) (old new s : str) :
  In c old -> ~ In c s -> replace_from old new 0 s = s.
Proof.
  intros Hp; induction s as [|x s IH]; intros Hs; [reflexivity|].
  cbn [replace_from].
  rewrite (starts_with_absent c old (x :: s) Hp Hs).
  f_equal; apply IH; intros Hin; apply Hs; right; exact Hin.
Qed.

Lemma replace_absent (c : N) (old new s : str) :
  In c old -> ~ In c s -> replace old new s = s.
Proof.
  intros Hp Hs; destruct old as [|a old]; [destruct Hp|].
  apply (replace_from_absent c); assumption.
Qed.

(** Deleting a one-character pattern leaves no occurrence of it. *)
Lemma replace_single_gone (c : N) (s : str) :
  ~ In c (replace [c] [] s).
Proof.
  unfold replace; induction s as [|x s IH]; [intros []|].
  cbn [replace_from starts_with].
  destruct (N.eqb_spec c x) as [->|Hne]; cbn [length Nat.sub app].
  - exact IH.
  - intros [E|Hin]; [congruence|exact (IH Hin)].
Qed.

End StringFacts.

Lemma slash_free_normalize (s : str) :
  ~ In 47%N (normalize_file_name s).
Proof. apply (replace_single_gone 47%N). Qed.

(** C10.  [normalize_file_name] is idempotent: normalising an already
    normalised name changes nothing. *)
Theorem normalize_file_name_idempotent (s : str) :
  normalize_file_name (normalize_file_name s) = normalize_file_name s.
Proof.
  pose proof (slash_free_normalize s) as Hfree.
  set (t := normalize_file_name s) in *.
  unfold normalize_file_name at 1.
  rewrite (replace_absent 47%N (lit "https://") [] t); [|vm_compute; tauto|exact Hfree].
  rewrite (replace_absent 47%N (lit "http://") [] t); [|vm_compute; tauto|exact Hfree].
  apply (replace_absent 47%N); [vm_compute; tauto|exact Hfree].
Qed.

(* --------------------------------------------------------------------- *)
(** ** The stability detector *)
(* --------------------------------------------------------------------- *)

Lemma streak_nonneg (s : nat -> Z) (i : nat) : 0 <= streak s i.
Proof.
  induction i as [|i IH]; cbn [streak]; [lia|].
  destruct (s (S i) =? s i); lia.
Qed.

(** A streak of at least [m] at sample [i] is a run of [m + 1] equal
    samples complete at [i]. *)
Lemma streak_ge (s : nat -> Z) (i : nat) :
  forall m : nat, Z.of_nat m <= streak s i <-> run_ends_at s (S m) i.
Proof.
  unfold run_ends_at.
  induction i as [|i IH]; intros m; cbn [streak].
  - split.
    + intros Hm. split; [lia|]. intros j Hj. f_equal; lia.
    + intros [Hm _]. lia.
  - destruct (Z.eqb_spec (s (S i)) (s i)) as [E|NE].
    + destruct m as [|m].
      * pose proof (streak_nonneg s i). split; [|lia].
        intros _. split; [lia|]. intros j Hj. f_equal; lia.
      * specialize (IH m). split.
        -- intros Hm. assert (Hi : Z.of_nat m <= streak s i) by lia.
           apply IH in Hi as [Hlen Heq]. split; [lia|].
           intros j Hj. destruct (Nat.eq_dec j (S i)) as [->|Hne]; [reflexivity|].
           rewrite E. apply Heq. lia.
        -- intros [Hlen Heq].
           assert (Hi : Z.of_nat m <= streak s i); [|lia].
           apply IH. split; [lia|]. intros j Hj.
           rewrite <- E. apply Heq. lia.
    + split.
      * intros Hm. assert (m = 0%nat) as -> by lia. split; [lia|].
        intros j Hj. f_equal; lia.
      * intros [Hlen Heq]. destruct m as [|m]; [lia|].
        exfalso. apply NE. symmetry. apply Heq. lia.
Qed.

(** A run contains every shorter run that ends with it. *)
Lemma run_ends_at_shorter (s : nat -> Z) (len len' i : nat) :
  (len' <= len)%nat -> run_ends_at s len i -> run_ends_at s len' i.
Proof.
  intros Hle [Hlen Heq]. split; [lia|]. intros j Hj. apply Heq. lia.
Qed.

Lemma settle_after_gt (s : nat -> Z) (N : Z) (n : nat) :
  forall k L C j, settle_after s N n k L C = Some j -> (k < j <= k + n)%nat.
Proof.
  induction n as [|n IH]; intros k L C j; cbn [settle_after]; [discriminate|].
  destruct (s k =? L).
  - destruct (C + 1 >=? N).
    + intros [= <-]. lia.
    + intros H. apply IH in H. lia.
  - intros H. apply IH in H. lia.
Qed.

(** What [settle_after] computes, started fresh or in the middle of a scan:
    the first sample whose streak reaches [max 1 stable_iterations]. *)
Lemma settle_after_spec (s : nat -> Z) (N : Z) :
  (forall j, 0 <= s j) ->
  forall n k L C,
    (k = 0%nat /\ L = -1 /\ C = 0) \/
    (exists k', k = S k' /\ L = s k' /\ C = streak s k') ->
    match settle_after s N n k L C with
    | Some j =>
        exists i, j = S i /\ (k <= i < k + n)%nat /\
                  Z.max 1 N <= streak s i /\
                  forall i', (k <= i' < i)%nat -> streak s i' < Z.max 1 N
    | None => forall i, (k <= i < k + n)%nat -> streak s i < Z.max 1 N
    end.
Proof.
  intros Hs. induction n as [|n IH]; intros k L C Inv; cbn [settle_after].
  - intros i Hi. lia.
  - assert (Hk : (s k =? L) = true -> streak s k = C + 1).
    { intros E. apply Z.eqb_eq in E.
      destruct Inv as [(-> & -> & ->)|(k' & -> & -> & ->)].
      - specialize (Hs 0%nat). lia.
      - cbn [streak]. rewrite (proj2 (Z.eqb_eq _ _) E). reflexivity. }
    assert (Hk' : (s k =? L) = false -> streak s k = 0).
    { intros E. destruct Inv as [(-> & -> & ->)|(k' & -> & -> & ->)].
      - reflexivity.
      - cbn [streak]. rewrite E. reflexivity. }
    assert (HC : 0 <= C).
    { destruct Inv as [(_ & _ & ->)|(k' & _ & _ & ->)];
        [lia|apply streak_nonneg]. }
    destruct (s k =? L) eqn:E.
    + specialize (Hk eq_refl). destruct (Z.geb_spec (C + 1) N) as [Hge|Hlt].
      * exists k. repeat split; try lia.
      * specialize (IH (S k) L (C + 1)).
        assert (Inv' : (S k = 0%nat /\ L = -1 /\ C + 1 = 0) \/
                       (exists k', S k = S k' /\ L = s k' /\ C + 1 = streak s k')).
        { right. exists k. apply Z.eqb_eq in E. auto. }
        specialize (IH Inv').
        destruct (settle_after s N n (S k) L (C + 1)) as [j|].
        -- destruct IH as (i & -> & Hi & Hmax & Hmin).
           exists i. repeat split; try lia.
           intros i' Hi'. destruct (Nat.eq_dec i' k) as [->|Hne]; [lia|].
           apply Hmin. lia.
        -- intros i Hi. destruct (Nat.eq_dec i k) as [->|Hne]; [lia|].
           apply IH. lia.
    + specialize (Hk' eq_refl). specialize (IH (S k) (s k) 0).
      assert (Inv' : (S k = 0%nat /\ s k = -1 /\ 0 = 0) \/
                     (exists k', S k = S k' /\ s k = s k' /\ 0 = streak s k')).
      { right. exists k. auto. }
      specialize (IH Inv').
      destruct (settle_after s N n (S k) (s k) 0) as [j|].
      * destruct IH as (i & -> & Hi & Hmax & Hmin).
        exists i. repeat split; try lia.
        intros i' Hi'. destruct (Nat.eq_dec i' k) as [->|Hne]; [lia|].
        apply Hmin. lia.
      * intros i Hi. destruct (Nat.eq_dec i k) as [->|Hne]; [lia|].
        apply IH. lia.
Qed.

Section Detector.

Variable page : nat -> list N.
Variable check_interval : Q.
Variable stable_iterations : Z.

Lemma sleep_returns (w : World) :
  ~ (check_interval < 0)%Q ->
  sleep check_interval w =
  (Returned tt,
   mkWorld (stdout w) (dirs w) (files w) (page_calls w)
     (slept w ++ [check_interval])).
Proof.
  intros Hci. unfold sleep.
  destruct (Qlt_le_dec check_interval 0); [contradiction|reflexivity].
Qed.

(** The loop does what [settle_after] says: it stops at the sample that
    settles, having slept after every sample before it, or takes all [n]
    samples. *)
Lemma stability_loop_run (Hci : ~ (check_interval < 0)%Q) (c0 n : nat) :
  forall k last_size stable_count w,
    page_calls w = (c0 + k)%nat ->
    stability_loop page check_interval stable_iterations n
      last_size stable_count w =
    match settle_after (sizes_from page c0) stable_iterations n k
            last_size stable_count with
    | Some j =>
        (Returned true,
         mkWorld (stdout w ++ [lit "DOM has stabilized."]) (dirs w) (files w)
           (c0 + j) (slept w ++ repeat check_interval (j - 1 - k)))
    | None =>
        (Returned false,
         mkWorld (stdout w) (dirs w) (files w)
           (c0 + k + n) (slept w ++ repeat check_interval n))
    end.
Proof.
  induction n as [|n IH]; intros k L C w Hw.
  - destruct w as [out ds fs pc sl]; cbn in *; subst pc.
    unfold ret. rewrite Nat.add_0_r, app_nil_r. reflexivity.
  - cbn [stability_loop settle_after].
    unfold bind at 1, page_content. rewrite Hw. fold (sizes_from page c0 k).
    destruct (sizes_from page c0 k =? L).
    + cbn zeta. destruct (C + 1 >=? stable_iterations).
      * unfold bind, print, ret; cbn.
        replace (k - 0 - k)%nat with 0%nat by lia.
        rewrite app_nil_r, Nat.add_succ_r. reflexivity.
      * unfold bind at 1. rewrite sleep_returns by assumption.
        rewrite (IH (S k)) by (cbn; lia). cbn.
        destruct (settle_after (sizes_from page c0) stable_iterations n (S k) L (C + 1))
          as [j|] eqn:E.
        -- apply settle_after_gt in E.
           replace (j - 1 - k)%nat with (S (j - 1 - S k)) by lia.
           cbn [repeat]. rewrite <- app_assoc. reflexivity.
        -- rewrite <- app_assoc. cbn [app].
           replace (c0 + S k + n)%nat with (c0 + k + S n)%nat by lia.
           reflexivity.
    + unfold bind at 1. rewrite sleep_returns by assumption.
      rewrite (IH (S k)) by (cbn; lia). cbn.
      destruct (settle_after (sizes_from page c0) stable_iterations n (S k) (sizes_from page c0 k) 0)
        as [j|] eqn:E.
      * apply settle_after_gt in E.
        replace (j - 1 - k)%nat with (S (j - 1 - S k)) by lia.
        cbn [repeat]. rewrite <- app_assoc. reflexivity.
      * rewrite <- app_assoc. cbn [app].
        replace (c0 + S k + n)%nat with (c0 + k + S n)%nat by lia.
        reflexivity.
Qed.

Lemma int_floordiv_returns (timeout : Q) (w : World) :
  (0 < check_interval)%Q ->
  int_floordiv timeout check_interval w =
  (Returned (Qfloor (timeout / check_interval)), w).
Proof.
  intros Hpos. unfold int_floordiv.
  destruct (Qeq_bool check_interval 0) eqn:E; [|reflexivity].
  apply Qeq_bool_iff in E. rewrite E in Hpos.
  exfalso. exact (Qlt_irrefl 0 Hpos).
Qed.

(** The detector with a positive interval: it returns [None]; what it
    printed, how many samples it took and how often it slept follow from
    [settle_after]. *)
Lemma wait_for_dom_stability_run (timeout : Q) (w : World) :
  (0 < check_interval)%Q ->
  wait_for_dom_stability page check_interval stable_iterations timeout w =
  let max_checks := Z.to_nat (Qfloor (timeout / check_interval)) in
  match settle_after (sample page w) stable_iterations max_checks 0 (-1) 0 with
  | Some j =>
      (Returned tt,
       mkWorld (stdout w ++ [lit "DOM has stabilized."]) (dirs w) (files w)
         (page_calls w + j) (slept w ++ repeat check_interval (j - 1)))
  | None =>
      (Returned tt,
       mkWorld
         (stdout w ++ [lit "Warning: DOM may not be fully stable after timeout."])
         (dirs w) (files w)
         (page_calls w + max_checks)
         (slept w ++ repeat check_interval max_checks))
  end.
Proof.
  intros Hpos.
  assert (Hci : ~ (check_interval < 0)%Q).
  { intros Hneg. exact (Qlt_irrefl _ (Qlt_trans _ _ _ Hneg Hpos)). }
  unfold wait_for_dom_stability. unfold bind at 1.
  rewrite int_floordiv_returns by assumption.
  unfold bind. rewrite (stability_loop_run Hci (page_calls w) _ 0%nat) by lia.
  change (sizes_from page (page_calls w)) with (sample page w). cbn zeta.
  destruct (settle_after (sample page w) stable_iterations _ 0 (-1) 0) as [j|].
  - unfold ret. rewrite Nat.sub_0_r. reflexivity.
  - unfold print; cbn. rewrite Nat.add_0_r. reflexivity.
Qed.

End Detector.

Lemma sample_nonneg (page : nat -> list N) (w : World) (j : nat) :
  0 <= sample page w j.
Proof. unfold sample, sizes_from. lia. Qed.

(** C1 (amended).  With a positive interval and [stable_iterations >= 1],
    the detector reports that the page has settled at the first sample that
    completes a run of [stable_iterations + 1] equal sizes, provided that
    sample is among the [int(timeout // check_interval)] it may take: it
    prints "DOM has stabilized.", has then called [page.content()] exactly
    [i + 1] times ([i] counted from 0), slept after each earlier sample, and
    returns [None]. *)
Theorem detector_settles_at_first_full_run
    (page : nat -> list N) (check_interval : Q) (stable_iterations : Z)
    (timeout : Q) (w : World) (i : nat) :
  (0 < check_interval)%Q ->
  1 <= stable_iterations ->
  Z.of_nat i < Qfloor (timeout / check_interval) ->
  run_ends_at (sample page w) (Z.to_nat stable_iterations + 1) i ->
  (forall i', (i' < i)%nat ->
     ~ run_ends_at (sample page w) (Z.to_nat stable_iterations + 1) i') ->
  wait_for_dom_stability page check_interval stable_iterations timeout w =
  (Returned tt,
   mkWorld (stdout w ++ [stabilized_line]) (dirs w) (files w)
     (page_calls w + S i) (slept w ++ repeat check_interval i)).
Proof.
  intros Hpos HN Hi Hrun Hfirst.
  rewrite wait_for_dom_stability_run by assumption. cbn zeta.
  set (M := Z.to_nat (Qfloor (timeout / check_interval))).
  pose proof (settle_after_spec (sample page w) stable_iterations
                (sample_nonneg page w) M 0 (-1) 0) as Hspec.
  rewrite Nat.add_1_r in Hrun.
  assert (Hstreak : stable_iterations <= streak (sample page w) i).
  { apply streak_ge in Hrun. lia. }
  destruct (settle_after (sample page w) stable_iterations M 0 (-1) 0) as [j|].
  - destruct Hspec as (i0 & -> & Hi0 & Hmax & Hmin); [left; auto|].
    assert (i0 = i) as ->.
    { destruct (Nat.lt_trichotomy i0 i) as [Hlt|[Heq|Hgt]]; [|exact Heq|].
      - exfalso. apply (Hfirst i0 Hlt). rewrite Nat.add_1_r.
        apply streak_ge. lia.
      - specialize (Hmin i). lia. }
    replace (S i - 1)%nat with i by lia. reflexivity.
  - exfalso. specialize (Hspec (or_introl (conj eq_refl (conj eq_refl eq_refl))) i).
    subst M. lia.
Qed.

(** C5 (amended).  With a positive interval, when no run of
    [stable_iterations] equal sizes is complete at any of the
    [int(timeout // check_interval)] samples, the detector takes all of
    these samples, sleeps after each, prints the warning that the page may
    not be stable, and returns [None]: no record is returned. *)
Theorem detector_gives_up_without_run
    (page : nat -> list N) (check_interval : Q) (stable_iterations : Z)
    (timeout : Q) (w : World) :
  (0 < check_interval)%Q ->
  (forall i, (i < Z.to_nat (Qfloor (timeout / check_interval)))%nat ->
     ~ run_ends_at (sample page w) (Z.to_nat stable_iterations) i) ->
  wait_for_dom_stability page check_interval stable_iterations timeout w =
  (Returned tt,
   mkWorld (stdout w ++ [warning_line]) (dirs w) (files w)
     (page_calls w + Z.to_nat (Qfloor (timeout / check_interval)))
     (slept w ++ repeat check_interval
                   (Z.to_nat (Qfloor (timeout / check_interval))))).
Proof.
  intros Hpos Hnone.
  rewrite wait_for_dom_stability_run by assumption. cbn zeta.
  set (M := Z.to_nat (Qfloor (timeout / check_interval))) in *.
  pose proof (settle_after_spec (sample page w) stable_iterations
                (sample_nonneg page w) M 0 (-1) 0) as Hspec.
  destruct (settle_after (sample page w) stable_iterations M 0 (-1) 0) as [j|];
    [|reflexivity].
  exfalso. destruct Hspec as (i & -> & Hi & Hmax & _); [left; auto|].
  apply (Hnone i); [lia|].
  apply (run_ends_at_shorter _ (S (Z.to_nat stable_iterations))); [lia|].
  apply streak_ge. lia.
Qed.

Lemma Qfloor_below_one (a c : Q) :
  (0 < c)%Q -> (a < c)%Q -> Qfloor (a / c) <= 0.
Proof.
  intros Hc Hac.
  assert (H1 : (a / c < 1)%Q).
  { apply Qlt_shift_div_r; [exact Hc|]. rewrite Qmult_1_l. exact Hac. }
  pose proof (Qfloor_le (a / c)) as Hfl.
  assert (H2 : (inject_Z (Qfloor (a / c)) < inject_Z 1)%Q).
  { eapply Qle_lt_trans; [exact Hfl|exact H1]. }
  rewrite <- Zlt_Qlt in H2. lia.
Qed.

(** C4 (amended).  With a positive interval and a timeout strictly below
    it, the detector takes no sample at all: it calls neither
    [page.content()] nor [time.sleep], prints the warning that the page may
    not be stable, and returns. *)
Theorem detector_takes_no_sample_below_interval
    (page : nat -> list N) (check_interval : Q) (stable_iterations : Z)
    (timeout : Q) (w : World) :
  (0 < check_interval)%Q ->
  (timeout < check_interval)%Q ->
  wait_for_dom_stability page check_interval stable_iterations timeout w =
  (Returned tt,
   mkWorld (stdout w ++ [warning_line]) (dirs w) (files w)
     (page_calls w) (slept w)).
Proof.
  intros Hpos Hlt.
  rewrite wait_for_dom_stability_run by assumption. cbn zeta.
  pose proof (Qfloor_below_one timeout check_interval Hpos Hlt) as Hfl.
  replace (Z.to_nat (Qfloor (timeout / check_interval))) with 0%nat by lia.
  cbn. rewrite Nat.add_0_r, app_nil_r. reflexivity.
Qed.

(** C9 (amended).  With a positive interval the detector returns (it raises
    nothing, and the model is a total function), having called
    [page.content()] at most [max(0, int(timeout // check_interval))]
    times. *)
Theorem detector_returns_within_max_checks
    (page : nat -> list N) (check_interval : Q) (stable_iterations : Z)
    (timeout : Q) (w : World) :
  (0 < check_interval)%Q ->
  exists w',
    wait_for_dom_stability page check_interval stable_iterations timeout w
    = (Returned tt, w') /\
    (page_calls w <= page_calls w')%nat /\
    Z.of_nat (page_calls w' - page_calls w)
    <= Z.max 0 (Qfloor (timeout / check_interval)).
Proof.
  intros Hpos.
  rewrite wait_for_dom_stability_run by assumption. cbn zeta.
  destruct (settle_after (sample page w) stable_iterations _ 0 (-1) 0)
    as [j|] eqn:E.
  - apply settle_after_gt in E.
    eexists; split; [reflexivity|]. cbn [page_calls]. lia.
  - eexists; split; [reflexivity|]. cbn [page_calls]. lia.
Qed.

(** The scenario continued by a fifth sample of 150: settled after five
    samples. *)
Lemma detector_settles_at_first_full_run_witness :
  wait_for_dom_stability scenario_page (1 # 2) 3 5 initial_world =
  (Returned tt,
   mkWorld [stabilized_line] ∅ ∅ 5 (repeat (1 # 2) 4)).
Proof.
  apply (detector_settles_at_first_full_run
           scenario_page (1 # 2) 3 5 initial_world 4).
  - reflexivity.
  - lia.
  - vm_compute. reflexivity.
  - split; [vm_compute; lia|]. intros j Hj.
    assert (Hc : (j = 1 \/ j = 2 \/ j = 3 \/ j = 4)%nat) by (vm_compute in Hj; lia).
    destruct Hc as [->|[->|[->| ->]]]; vm_compute; reflexivity.
  - intros i' Hi' [Hlen Heq].
    assert (i' = 3%nat) as -> by (vm_compute in Hlen; lia).
    specialize (Heq 0%nat). vm_compute in Heq.
    assert (H : Z.pos 100 = Z.pos 150) by (apply Heq; split; lia).
    discriminate H.
Defined.

(** C1, as stated, fails on the scenario.  The fourth sample completes a
    run of three equal sizes within the timeout, yet the detector goes on:
    when the size stays at 150 it reports the page settled after five
    samples, not four, and when the size changes from the fifth sample on
    it takes all ten samples and warns that the page may not be stable. *)
Lemma three_equal_samples_do_not_settle :
  run_ends_at (sample scenario_page initial_world) 3 3 /\
  Z.of_nat 3 < Qfloor (5 / (1 # 2)) /\
  stdout (snd (wait_for_dom_stability scenario_page (1 # 2) 3 5 initial_world))
  = [stabilized_line] /\
  page_calls (snd (wait_for_dom_stability scenario_page (1 # 2) 3 5 initial_world))
  = 5%nat /\
  stdout (snd (wait_for_dom_stability restless_page (1 # 2) 3 5 initial_world))
  = [warning_line] /\
  page_calls (snd (wait_for_dom_stability restless_page (1 # 2) 3 5 initial_world))
  = 10%nat.
Proof.
  split.
  - split; [lia|]. intros j Hj.
    assert (Hc : (j = 1 \/ j = 2 \/ j = 3)%nat) by lia.
    destruct Hc as [->|[->| ->]]; vm_compute; reflexivity.
  - repeat split; vm_compute; reflexivity.
Qed.

Lemma growing_page_sample (j : nat) :
  sample growing_page initial_world j = Z.of_nat j.
Proof.
  unfold sample, sizes_from, growing_page, page_of_sizes.
  cbn [page_calls initial_world].
  rewrite repeat_length. f_equal. cbn [Nat.add]. destruct j; reflexivity.
Qed.

(** A page whose size never repeats, under the defaults of the script: ten
    samples, the warning, and [None]. *)
Lemma detector_gives_up_without_run_witness :
  wait_for_dom_stability growing_page (1 # 2) 3 5 initial_world =
  (Returned tt,
   mkWorld [warning_line] ∅ ∅ 10 (repeat (1 # 2) 10)).
Proof.
  apply (detector_gives_up_without_run growing_page (1 # 2) 3 5 initial_world).
  - reflexivity.
  - intros i _ [Hlen Heq]. change (Z.to_nat 3) with 3%nat in *.
    specialize (Heq (i - 1)%nat). rewrite !growing_page_sample in Heq.
    assert (H : Z.of_nat (i - 1) = Z.of_nat i) by (apply Heq; lia).
    lia.
Defined.

(** C5, as stated, fails: the detector returns no record.  On a page whose
    size never repeats it returns [None], the very value it returns on a
    page that settles; the outcome is only printed. *)
Lemma detector_returns_no_record :
  fst (wait_for_dom_stability growing_page (1 # 2) 3 5 initial_world)
  = Returned tt /\
  fst (wait_for_dom_stability scenario_page (1 # 2) 3 5 initial_world)
  = Returned tt /\
  stdout (snd (wait_for_dom_stability growing_page (1 # 2) 3 5 initial_world))
  = [warning_line] /\
  stdout (snd (wait_for_dom_stability scenario_page (1 # 2) 3 5 initial_world))
  = [stabilized_line].
Proof. repeat split; vm_compute; reflexivity. Qed.

(** A timeout of a quarter of a second with the interval of half a second. *)
Lemma detector_takes_no_sample_below_interval_witness :
  wait_for_dom_stability scenario_page (1 # 2) 3 (1 # 4) initial_world =
  (Returned tt, mkWorld [warning_line] ∅ ∅ 0 []).
Proof.
  apply (detector_takes_no_sample_below_interval
           scenario_page (1 # 2) 3 (1 # 4) initial_world).
  - reflexivity.
  - reflexivity.
Defined.

(** C4, as stated, fails: with a timeout of a quarter of a second and an
    interval of half a second the detector calls [page.content()] zero
    times, not once. *)
Lemma timeout_below_interval_takes_zero_samples :
  (1 # 4 < 1 # 2)%Q /\
  page_calls
    (snd (wait_for_dom_stability scenario_page (1 # 2) 3 (1 # 4) initial_world))
  = 0%nat /\
  fst (wait_for_dom_stability scenario_page (1 # 2) 3 (1 # 4) initial_world)
  = Returned tt.
Proof. repeat split; vm_compute; reflexivity. Qed.

(** The defaults of the script. *)
Lemma detector_returns_within_max_checks_witness :
  exists w',
    wait_for_dom_stability scenario_page (1 # 2) 3 5 initial_world
    = (Returned tt, w') /\
    (page_calls initial_world <= page_calls w')%nat /\
    Z.of_nat (page_calls w' - page_calls initial_world)
    <= Z.max 0 (Qfloor (5 / (1 # 2))).
Proof.
  apply (detector_returns_within_max_checks
           scenario_page (1 # 2) 3 5 initial_world).
  reflexivity.
Defined.

(** C9, as stated, fails for a negative timeout: with a timeout of -1 and an
    interval of half a second [int(timeout // check_interval)] is -2, and
    the number of calls made, zero, is not at most -2. *)
Lemma negative_timeout_bound_is_exceeded :
  Qfloor (-1 / (1 # 2)) = -2 /\
  fst (wait_for_dom_stability scenario_page (1 # 2) 3 (-1) initial_world)
  = Returned tt /\
  page_calls
    (snd (wait_for_dom_stability scenario_page (1 # 2) 3 (-1) initial_world))
  = 0%nat /\
  Qfloor (-1 / (1 # 2))
  < Z.of_nat
      (page_calls
         (snd (wait_for_dom_stability scenario_page (1 # 2) 3 (-1) initial_world))).
Proof. repeat split; vm_compute; reflexivity. Qed.

(* --------------------------------------------------------------------- *)
(** ** Strings and paths *)
(* --------------------------------------------------------------------- *)

Lemma lstrip_suffix (s : list N) : exists p, s = p ++ lstrip s.
Proof.
  induction s as [|c s [p IH]]; [exists []; reflexivity|].
  cbn [lstrip]. destruct (isspace c).
  - exists (c :: p). cbn. f_equal. exact IH.
  - exists []. reflexivity.
Qed.

Lemma lstrip_head (s : list N) (c : N) (r : list N) :
  lstrip s = c :: r -> isspace c = false.
Proof.
  induction s as [|x s IH]; cbn [lstrip]; [discriminate|].
  destruct (isspace x) eqn:E; [exact IH|].
  intros [= <- _]. exact E.
Qed.

Lemma lstrip_fixed (s : list N) :
  match s with [] => True | c :: _ => isspace c = false end -> lstrip s = s.
Proof. destruct s as [|c s]; [reflexivity|]. cbn. intros ->. reflexivity. Qed.

Lemma lstrip_idempotent (s : list N) : lstrip (lstrip s) = lstrip s.
Proof.
  apply lstrip_fixed. destruct (lstrip s) as [|c r] eqn:E; [exact I|].
  exact (lstrip_head _ _ _ E).
Qed.

Lemma rstrip_prefix (s : list N) : exists t, s = rstrip s ++ t.
Proof.
  unfold rstrip. destruct (lstrip_suffix (rev s)) as [p Hp].
  exists (rev p). rewrite <- rev_app_distr, <- Hp, rev_involutive. reflexivity.
Qed.

(** Stripping twice is stripping once. *)
Lemma strip_idempotent (s : list N) : strip (strip s) = strip s.
Proof.
  unfold strip.
  assert (Hl : lstrip (rstrip (lstrip s)) = rstrip (lstrip s)).
  { apply lstrip_fixed.
    destruct (rstrip_prefix (lstrip s)) as [t Ht].
    destruct (rstrip (lstrip s)) as [|c r]; [exact I|].
    exact (lstrip_head s c (r ++ t) Ht). }
  rewrite Hl. unfold rstrip at 1 2.
  rewrite rev_involutive, lstrip_idempotent. reflexivity.
Qed.

(** The directory of [dir/name] is [dir] when [name] has no slash. *)
Lemma parent_dir_app (dir name : list N) :
  existsb (N.eqb 47) name = false ->
  parent_dir (dir ++ 47%N :: name) = dir.
Proof.
  intros Hname. induction dir as [|c dir IH]; cbn [app parent_dir].
  - rewrite Hname. reflexivity.
  - rewrite existsb_app. cbn [existsb]. rewrite N.eqb_refl, orb_true_r.
    f_equal. exact IH.
Qed.

Lemma parent_dir_report_path (name : list N) :
  parent_dir (report_path name) = selectors_dir name.
Proof.
  unfold report_path, selectors_dir. rewrite app_assoc.
  change (lit "/pv_to_atc.json") with (47%N :: lit "pv_to_atc.json").
  apply parent_dir_app. vm_compute. reflexivity.
Qed.

Lemma open_write_report (name content : list N) (w : World) :
  selectors_dir name ∈ dirs w ->
  open_write (report_path name) content w =
  (Returned tt,
   mkWorld (stdout w) (dirs w) (<[ report_path name := content ]> (files w))
     (page_calls w) (slept w)).
Proof.
  intros Hdir. unfold open_write. rewrite parent_dir_report_path.
  rewrite bool_decide_eq_true_2 by exact Hdir. reflexivity.
Qed.

Lemma open_write_report_absent (name content : list N) (w : World) :
  selectors_dir name ∉ dirs w ->
  exists e, open_write (report_path name) content w = (Raised e, w).
Proof.
  intros Hdir. unfold open_write. rewrite parent_dir_report_path.
  rewrite bool_decide_eq_false_2 by exact Hdir.
  destruct (existsb _ _); eexists; reflexivity.
Qed.

(** With no file standing at a directory of the path, the error is
    [FileNotFoundError]. *)
Lemma open_write_report_not_found (name content : list N) (w : World) :
  selectors_dir name ∉ dirs w ->
  Forall (fun dir => files w !! dir = None) (ancestors [] (report_path name)) ->
  open_write (report_path name) content w = (Raised FileNotFoundError, w).
Proof.
  intros Hdir Hfiles. unfold open_write. rewrite parent_dir_report_path.
  rewrite bool_decide_eq_false_2 by exact Hdir.
  replace (existsb _ _) with false; [reflexivity|].
  symmetry. induction Hfiles as [|dir l Hd _ IH]; [reflexivity|].
  cbn [existsb]. rewrite IH, Hd.
  rewrite bool_decide_eq_false_2 by (intros [x Hx]; discriminate).
  reflexivity.
Qed.

(* --------------------------------------------------------------------- *)
(** ** What [main] does with the response *)
(* --------------------------------------------------------------------- *)

(** Runs the [print] statements that are left and compares the worlds. *)
Ltac run_prints :=
  unfold bind, print, first_block, ret;
  cbn [stdout dirs files page_calls slept];
  rewrite <- !app_assoc; reflexivity.

Section Report.

Variable C : Collaborators.
Variable argv : list (list N).

(** A response whose fenced block parses: four lines are printed and the
    stripped block is handed to [open]. *)
Lemma main_report_parsed (b : TextBlock) (bs : list TextBlock) (w : World)
    (group1 : list N) (data : json) :
  search_fenced_json (join [10%N] (map text (b :: bs))) = Some group1 ->
  json_loads C (strip group1) = Some data ->
  main_report C argv (b :: bs) w =
  open_write (report_path (report_file_name argv)) (strip group1)
    (mkWorld
       (stdout w ++ [count_line (b :: bs); lit "=== PARSED JSON ===";
                     json_dumps C data;
                     writing_line (report_file_name argv)])
       (dirs w) (files w) (page_calls w) (slept w)).
Proof.
  intros Hsearch Hloads. unfold main_report. cbv zeta.
  rewrite Hsearch, Hloads.
  run_prints.
Qed.

(** A response whose fenced block does not parse: the stripped block is
    printed. *)
Lemma main_report_decode_error (b : TextBlock) (bs : list TextBlock)
    (w : World) (group1 : list N) :
  search_fenced_json (join [10%N] (map text (b :: bs))) = Some group1 ->
  json_loads C (strip group1) = None ->
  main_report C argv (b :: bs) w =
  (Returned tt,
   mkWorld
     (stdout w ++ [count_line (b :: bs);
                   lit "=== RAW TEXT (JSON decode error) ===";
                   strip group1])
     (dirs w) (files w) (page_calls w) (slept w)).
Proof.
  intros Hsearch Hloads. unfold main_report. cbv zeta.
  rewrite Hsearch, Hloads.
  run_prints.
Qed.

(** A response without a fenced block: the whole text and the first block
    are printed. *)
Lemma main_report_no_fence (b : TextBlock) (bs : list TextBlock) (w : World) :
  search_fenced_json (join [10%N] (map text (b :: bs))) = None ->
  main_report C argv (b :: bs) w =
  (Returned tt,
   mkWorld
     (stdout w ++ [count_line (b :: bs); lit "=== RAW TEXT ===";
                   join [10%N] (map text (b :: bs));
                   lit "=== RAW JSON ==="; block_repr b])
     (dirs w) (files w) (page_calls w) (slept w)).
Proof.
  intros Hsearch. unfold main_report. cbv zeta. rewrite Hsearch.
  run_prints.
Qed.

(** An empty response: [blocks[0]] raises. *)
Lemma main_report_empty (w : World) :
  main_report C argv [] w =
  (Raised IndexError,
   mkWorld (stdout w ++ [count_line []]) (dirs w) (files w)
     (page_calls w) (slept w)).
Proof. reflexivity. Qed.

End Report.

(** C2 (amended).  The script checks a candidate for JSON syntax only.
    Whatever [json.loads] makes of the first fenced block of the response
    ([data] is arbitrary: keys may be missing, priorities out of range),
    [main] prints the parsed value and the file name and writes the whole
    stripped block, unchanged, to the report file, provided the directory of
    the report exists.  No violation is listed, nothing is raised. *)
Theorem main_report_persists_whatever_parses
    (C : Collaborators) (argv : list (list N)) (b : TextBlock)
    (bs : list TextBlock) (w : World) (group1 : list N) (data : json) :
  search_fenced_json (join [10%N] (map text (b :: bs))) = Some group1 ->
  json_loads C (strip group1) = Some data ->
  selectors_dir (report_file_name argv) ∈ dirs w ->
  main_report C argv (b :: bs) w =
  (Returned tt,
   mkWorld
     (stdout w ++ [count_line (b :: bs); lit "=== PARSED JSON ===";
                   json_dumps C data; writing_line (report_file_name argv)])
     (dirs w)
     (<[ report_path (report_file_name argv) := strip group1 ]> (files w))
     (page_calls w) (slept w)).
Proof.
  intros Hsearch Hloads Hdir.
  rewrite (main_report_parsed C argv b bs w group1 data Hsearch Hloads).
  rewrite open_write_report by exact Hdir. reflexivity.
Qed.

(** The candidate without [status], sent for the shop. *)
Lemma main_report_persists_whatever_parses_witness :
  report_run (fenced_response report_without_status) =
  (Returned tt,
   mkWorld
     [lit "<class 'list'> 1"; lit "=== PARSED JSON ===";
      RefJson.dumps
        (JObject
           [(lit "url", JString shop_url);
            (lit "timestamp", JString (lit "2025-01-01T00:00:00Z"));
            (lit "elements",
             JObject [(lit "hasCookieBanner", JBool false)]);
            (lit "notes", JArray [])]);
      lit "=== WRITING JSON TO FILE shop.example ==="]
     {[ selectors_dir (lit "shop.example") ]}
     (<[ report_path (lit "shop.example") := report_without_status ]> ∅)
     0 []).
Proof.
  apply (main_report_persists_whatever_parses
           (canned (fenced_response report_without_status))
           [script_name; shop_url]
           _ [] prepared_world
           ([10%N] ++ report_without_status ++ [10%N])).
  - vm_compute. reflexivity.
  - vm_compute. reflexivity.
  - vm_compute. reflexivity.
Defined.

(** C2, as stated, fails.  A candidate without [status] and a candidate
    whose [elements.cookies.acceptAll.priority] is 7 each break a
    structural rule of the specification, and the script persists both as
    they are. *)
Lemma structural_violations_are_persisted :
  option_map spec_violations (RefJson.loads report_without_status)
  = Some [MissingKey [lit "status"]] /\
  fst (report_run (fenced_response report_without_status)) = Returned tt /\
  files (snd (report_run (fenced_response report_without_status)))
    !! report_path (lit "shop.example") = Some report_without_status /\
  option_map spec_violations (RefJson.loads report_with_priority_7)
  = Some [PriorityOutOfRange
            (map lit ["elements"; "cookies"; "acceptAll"; "priority"]%string)] /\
  fst (report_run (fenced_response report_with_priority_7)) = Returned tt /\
  files (snd (report_run (fenced_response report_with_priority_7)))
    !! report_path (lit "shop.example") = Some report_with_priority_7.
Proof. repeat split; vm_compute; reflexivity. Qed.

(** C3 (amended).  The script has no EmptySelectorObject error.  A
    candidate that [json.loads] accepts and in which a SelectorObject has
    an empty [primary], an empty [secondary] and an empty [xpath] is
    accepted like any other: [main] raises nothing, prints the four lines
    of a parsed report and writes the stripped block to the report file
    (provided the directory of the report exists). *)
Theorem empty_selector_object_is_accepted
    (C : Collaborators) (argv : list (list N)) (b : TextBlock)
    (bs : list TextBlock) (w : World) (group1 : list N) (data : json)
    (path : list (list N)) :
  search_fenced_json (join [10%N] (map text (b :: bs))) = Some group1 ->
  json_loads C (strip group1) = Some data ->
  In (EmptySelectorObject path) (spec_violations data) ->
  selectors_dir (report_file_name argv) ∈ dirs w ->
  fst (main_report C argv (b :: bs) w) = Returned tt /\
  files (snd (main_report C argv (b :: bs) w))
    !! report_path (report_file_name argv) = Some (strip group1) /\
  stdout (snd (main_report C argv (b :: bs) w)) =
  stdout w ++ [count_line (b :: bs); lit "=== PARSED JSON ===";
               json_dumps C data; writing_line (report_file_name argv)].
Proof.
  intros Hsearch Hloads _ Hdir.
  rewrite (main_report_parsed C argv b bs w group1 data Hsearch Hloads).
  rewrite open_write_report by exact Hdir. cbn [fst snd files stdout].
  repeat split. apply lookup_insert_eq.
Qed.

(** The candidate whose [elements.cookies.accept] is empty, with the valid
    priority 1. *)
Lemma empty_selector_object_is_accepted_witness :
  fst (report_run (fenced_response report_with_empty_selector)) = Returned tt /\
  files (snd (report_run (fenced_response report_with_empty_selector)))
    !! report_path (report_file_name [script_name; shop_url])
  = Some (strip ([10%N] ++ report_with_empty_selector ++ [10%N])) /\
  stdout (snd (report_run (fenced_response report_with_empty_selector))) =
  stdout prepared_world ++
  [count_line (fenced_response report_with_empty_selector);
   lit "=== PARSED JSON ===";
   json_dumps (canned (fenced_response report_with_empty_selector))
     (JObject
        [(lit "url", JString shop_url);
         (lit "timestamp", JString (lit "2025-01-01T00:00:00Z"));
         (lit "status", JString (lit "partial"));
         (lit "elements",
          JObject
            [(lit "cookies",
              JObject
                [(lit "accept",
                  JObject
                    [(lit "elementType", JString (lit "cookieAccept"));
                     (lit "selectors",
                      JObject [(lit "primary", JString []);
                               (lit "secondary", JArray []);
                               (lit "xpath", JString [])]);
                     (lit "location", JString []);
                     (lit "priority", JInt 1)])])]);
         (lit "notes", JArray [])]);
   writing_line (report_file_name [script_name; shop_url])].
Proof.
  apply (empty_selector_object_is_accepted
           (canned (fenced_response report_with_empty_selector))
           [script_name; shop_url] _ [] prepared_world
           ([10%N] ++ report_with_empty_selector ++ [10%N]) _
           (map lit ["elements"; "cookies"; "accept"]%string)).
  - vm_compute. reflexivity.
  - vm_compute. reflexivity.
  - vm_compute. left. reflexivity.
  - vm_compute. reflexivity.
Defined.

(** C3, as stated, fails.  The candidate whose [elements.cookies.accept]
    has three empty selector fields breaks the specification's rule, and
    the script persists it as it is, with no error. *)
Lemma empty_selector_object_is_persisted :
  option_map spec_violations (RefJson.loads report_with_empty_selector)
  = Some [EmptySelectorObject (map lit ["elements"; "cookies"; "accept"]%string)] /\
  fst (report_run (fenced_response report_with_empty_selector)) = Returned tt /\
  files (snd (report_run (fenced_response report_with_empty_selector)))
    !! report_path (lit "shop.example") = Some report_with_empty_selector.
Proof. repeat split; vm_compute; reflexivity. Qed.

(** C6 (amended).  When no report can be read out of a (non-empty)
    response, no file is written and nothing is raised, and the text that
    failed is printed as it is: the whole response text, followed by the
    first block, when it holds no fenced block; the stripped content of the
    first fenced block, and not the response around it, when that content
    is no JSON. *)
Theorem unparsed_response_is_printed_not_persisted
    (C : Collaborators) (argv : list (list N)) (b : TextBlock)
    (bs : list TextBlock) (w : World) :
  candidate C (join [10%N] (map text (b :: bs))) = None ->
  main_report C argv (b :: bs) w =
  (Returned tt,
   mkWorld
     (stdout w ++
      count_line (b :: bs) ::
      match search_fenced_json (join [10%N] (map text (b :: bs))) with
      | Some group1 =>
          [lit "=== RAW TEXT (JSON decode error) ==="; strip group1]
      | None =>
          [lit "=== RAW TEXT ==="; join [10%N] (map text (b :: bs));
           lit "=== RAW JSON ==="; block_repr b]
      end)
     (dirs w) (files w) (page_calls w) (slept w)).
Proof.
  unfold candidate. intros Hnone.
  destruct (search_fenced_json (join [10%N] (map text (b :: bs))))
    as [group1|] eqn:Hsearch.
  - exact (main_report_decode_error C argv b bs w group1 Hsearch Hnone).
  - exact (main_report_no_fence C argv b bs w Hsearch).
Qed.

(** A response without a fenced block. *)
Lemma unparsed_response_is_printed_not_persisted_witness :
  report_run (one_block unfenced_text) =
  (Returned tt,
   mkWorld
     [lit "<class 'list'> 1"; lit "=== RAW TEXT ==="; unfenced_text;
      lit "=== RAW JSON ==="; lit "TextBlock(...)"]
     {[ selectors_dir (lit "shop.example") ]} ∅ 0 []).
Proof.
  apply (unparsed_response_is_printed_not_persisted
           (canned (one_block unfenced_text)) [script_name; shop_url]
           (mkTextBlock unfenced_text (lit "TextBlock(...)")) []
           prepared_world).
  vm_compute. reflexivity.
Defined.

(** C6, as stated, fails.  The fenced block of [malformed_text] is no JSON;
    the script prints the stripped block, [{oops], and no line it prints is
    the response text. *)
Lemma malformed_response_is_not_printed_verbatim :
  candidate (canned (one_block malformed_text)) malformed_text = None /\
  stdout (snd (report_run (one_block malformed_text)))
  = [lit "<class 'list'> 1"; lit "=== RAW TEXT (JSON decode error) ===";
     lit "{oops"] /\
  existsb (fun line => bool_decide (line = malformed_text))
    (stdout (snd (report_run (one_block malformed_text)))) = false /\
  files (snd (report_run (one_block malformed_text))) = ∅.
Proof. repeat split; vm_compute; reflexivity. Qed.

(* --------------------------------------------------------------------- *)
(** ** The reference codec reads what it writes *)
(* --------------------------------------------------------------------- *)

Module RefJsonFacts.
Import RefJson Written.

Lemma nzhead_no_zero (d d' : Decimal.uint) :
  Decimal.nzhead d <> Decimal.D0 d'.
Proof. induction d; cbn; try discriminate. exact IHd. Qed.

Lemma to_uint_no_leading_zero (p : positive) : no_leading_zero (Pos.to_uint p).
Proof.
  split; [apply DecimalPos.Unsigned.to_uint_nonnil|].
  intros u' Hu.
  assert (Hn : Decimal.unorm (Pos.to_uint p) = Pos.to_uint p).
  { rewrite <- DecimalPos.Unsigned.to_of, DecimalPos.Unsigned.of_to. reflexivity. }
  rewrite Hu, DecimalFacts.unorm_D0 in Hn. unfold Decimal.unorm in Hn.
  destruct (Decimal.nzhead u') eqn:E; try (injection Hn as <-; reflexivity);
    exfalso; rewrite <- E in Hn; exact (nzhead_no_zero _ _ Hn).
Qed.

Lemma str_of_Z_shape (z : Z) :
  exists u, no_leading_zero u /\
    (str_of_Z z = decimal_digits u \/ str_of_Z z = 45%N :: decimal_digits u).
Proof.
  destruct z as [|p|p].
  - exists (Decimal.D0 Decimal.Nil). split; [|left; reflexivity].
    split; [discriminate|]. intros u' [= <-]. reflexivity.
  - exists (Pos.to_uint p). split; [apply to_uint_no_leading_zero|left; reflexivity].
  - exists (Pos.to_uint p). split; [apply to_uint_no_leading_zero|right; reflexivity].
Qed.

Ltac digit_cases u :=
  destruct u as [|u|u|u|u|u|u|u|u|u|u];
  [ change (decimal_digits Decimal.Nil) with (@nil N) in *
  | change (decimal_digits (Decimal.D0 u)) with (48%N :: decimal_digits u) in *
  | change (decimal_digits (Decimal.D1 u)) with (49%N :: decimal_digits u) in *
  | change (decimal_digits (Decimal.D2 u)) with (50%N :: decimal_digits u) in *
  | change (decimal_digits (Decimal.D3 u)) with (51%N :: decimal_digits u) in *
  | change (decimal_digits (Decimal.D4 u)) with (52%N :: decimal_digits u) in *
  | change (decimal_digits (Decimal.D5 u)) with (53%N :: decimal_digits u) in *
  | change (decimal_digits (Decimal.D6 u)) with (54%N :: decimal_digits u) in *
  | change (decimal_digits (Decimal.D7 u)) with (55%N :: decimal_digits u) in *
  | change (decimal_digits (Decimal.D8 u)) with (56%N :: decimal_digits u) in *
  | change (decimal_digits (Decimal.D9 u)) with (57%N :: decimal_digits u) in * ].

Lemma span_digits_digits (u : Decimal.uint) (rest : list N) :
  no_digit_ahead rest ->
  span_digits (decimal_digits u ++ rest) = (decimal_digits u, rest).
Proof.
  intros Hrest. induction u as [|u IH|u IH|u IH|u IH|u IH|u IH|u IH|u IH|u IH|u IH].
  1: { destruct rest as [|c r]; [reflexivity|].
       cbn in Hrest |- *. rewrite Hrest. reflexivity. }
  all: match goal with
       | |- context [decimal_digits (?D ?x)] =>
           let d := eval vm_compute in (hd 0%N (decimal_digits (D Decimal.Nil))) in
           change (decimal_digits (D x)) with (d :: decimal_digits x)
       end;
       cbn [app span_digits]; rewrite IH; reflexivity.
Qed.

Lemma tail_ok_no_digit (rest : list N) : tail_ok rest -> no_digit_ahead rest.
Proof. destruct rest as [|c r]; [trivial|]. intros [->| ->]; reflexivity. Qed.

Ltac run_digits :=
  cbn -[decimal_digits digits_value Z.mul Z.sub Z.add Z.of_nat];
  rewrite ?span_digits_digits by (assumption || reflexivity);
  cbn -[decimal_digits digits_value Z.mul Z.sub Z.add Z.of_nat].

(** An integer, and what follows it. *)
Lemma read_unsigned_int (u : Decimal.uint) (rest : list N) :
  no_leading_zero u -> tail_ok rest ->
  exists v signed, read_unsigned (decimal_digits u ++ rest) = Some (v, signed, rest).
Proof.
  intros [Hnil Hzero] Hrest.
  pose proof (tail_ok_no_digit rest Hrest) as Hnd.
  unfold read_unsigned.
  digit_cases u; [contradiction| |..].
  1: rewrite (Hzero u eq_refl) in *;
     change (decimal_digits Decimal.Nil) with (@nil N) in *.
  all: run_digits. 
  all: destruct rest as [|c r]; [eexists; eexists; reflexivity|];
       destruct Hrest as [-> | ->]; eexists; eexists; reflexivity.
Qed.

Lemma read_number_int (z : Z) (rest : list N) :
  tail_ok rest ->
  exists v, read_number (str_of_Z z ++ rest) = Some (v, rest).
Proof.
  intros Hrest.
  destruct (str_of_Z_shape z) as (u & Hu & [-> | ->]).
  - destruct (read_unsigned_int u rest Hu Hrest) as (v & sg & E).
    exists v. destruct Hu as [Hnil _].
    digit_cases u; [contradiction|..]; cbn [app read_number] in *;
      rewrite E; reflexivity.
  - destruct (read_unsigned_int u rest Hu Hrest) as (v & sg & E).
    exists (sg (-1)). cbn [app read_number]. rewrite E. reflexivity.
Qed.

(** A number with an exponent, and what follows it. *)
Lemma read_unsigned_float (u : Decimal.uint) (e : Z) (rest : list N) :
  no_leading_zero u -> tail_ok rest ->
  exists v signed,
    read_unsigned (decimal_digits u ++ 101%N :: str_of_Z e ++ rest)
    = Some (v, signed, rest).
Proof.
  intros [Hnil Hzero] Hrest.
  pose proof (tail_ok_no_digit rest Hrest) as Hnd.
  destruct (str_of_Z_shape e) as (u2 & [Hnil2 _] & [-> | ->]).
  all: unfold read_unsigned.
  all: digit_cases u; [contradiction| |..].
  1, 11: rewrite (Hzero u eq_refl) in *;
     change (decimal_digits Decimal.Nil) with (@nil N) in *.
  all: digit_cases u2; [contradiction|..].
  all: run_digits; run_digits.
  all: eexists; eexists; reflexivity.
Qed.

Lemma read_number_float (m e : Z) (rest : list N) :
  tail_ok rest ->
  exists v,
    read_number (str_of_Z m ++ 101%N :: str_of_Z e ++ rest) = Some (v, rest).
Proof.
  intros Hrest.
  destruct (str_of_Z_shape m) as (u & Hu & [-> | ->]).
  - destruct (read_unsigned_float u e rest Hu Hrest) as (v & sg & E).
    exists v. destruct Hu as [Hnil _].
    digit_cases u; [contradiction|..]; cbn [app read_number] in *;
      rewrite E; reflexivity.
  - destruct (read_unsigned_float u e rest Hu Hrest) as (v & sg & E).
    exists (sg (-1)). cbn [app read_number]. rewrite E. reflexivity.
Qed.

(** A number is read by [read_number]. *)
Lemma read_value_number (fuel : nat) (z : Z) (rest : list N) :
  read_value (S fuel) (str_of_Z z ++ rest) = read_number (str_of_Z z ++ rest).
Proof.
  destruct (str_of_Z_shape z) as (u & [Hnil _] & [-> | ->]).
  - digit_cases u; [contradiction|..]; reflexivity.
  - reflexivity.
Qed.

Ltac settle_char c :=
  first
    [ left; reflexivity
    | destruct c as [c|c|]; [settle_char c|settle_char c|try (left; reflexivity)] ].

(** Behind a [\uXXXX] the reader goes on right there, or behind a second
    [\uXXXX] that it took for the low half of a pair. *)
Lemma read_string_u (a b c d hi : N) (rest2 acc : list N) :
  hex4 a b c d = Some hi ->
  read_string (92%N :: 117%N :: a :: b :: c :: d :: rest2) acc
  = read_string rest2 (hi :: acc) \/
  exists h1 h2 h3 h4 rest3 x,
    rest2 = 92%N :: 117%N :: h1 :: h2 :: h3 :: h4 :: rest3 /\
    read_string (92%N :: 117%N :: a :: b :: c :: d :: rest2) acc
    = read_string rest3 (x :: acc).
Proof.
  intros Hhex.
  change (read_string (92%N :: 117%N :: a :: b :: c :: d :: rest2) acc)
    with (match hex4 a b c d with
          | None => None
          | Some hi =>
              match rest2 with
              | 92%N :: 117%N :: h1 :: h2 :: h3 :: h4 :: rest3 =>
                  match hex4 h1 h2 h3 h4 with
                  | Some lo =>
                      if ((55296 <=? hi) && (hi <=? 56319) &&
                          (56320 <=? lo) && (lo <=? 57343))%N
                      then read_string rest3
                             ((65536 + (hi - 55296) * 1024
                               + (lo - 56320))%N :: acc)
                      else read_string rest2 (hi :: acc)
                  | None => read_string rest2 (hi :: acc)
                  end
              | _ => read_string rest2 (hi :: acc)
              end
          end).
  rewrite Hhex.
  destruct rest2 as [|x1 rest2]; [left; reflexivity|].
  destruct x1 as [|p1]; [left; reflexivity|].
  settle_char p1.
  destruct rest2 as [|x2 rest2]; [left; reflexivity|].
  destruct x2 as [|p2]; [left; reflexivity|].
  settle_char p2.
  destruct rest2 as [|h1 [|h2 [|h3 [|h4 rest3]]]]; try (left; reflexivity).
  destruct (hex4 h1 h2 h3 h4) as [lo|]; [|left; reflexivity].
  destruct ((55296 <=? hi) && (hi <=? 56319) &&
            (56320 <=? lo) && (lo <=? 57343))%N.
  - right. do 6 eexists. split; reflexivity.
  - left. reflexivity.
Qed.

Lemma escaped_app (s t : list N) : escaped s -> escaped t -> escaped (s ++ t).
Proof.
  intros Hs Ht. induction Hs; cbn [app]; [exact Ht|..];
    econstructor; eassumption.
Qed.

Lemma read_string_escaped (n : nat) :
  forall s, (length s <= n)%nat -> escaped s ->
  forall rest acc, exists x, read_string (s ++ 34%N :: rest) acc = Some (x, rest).
Proof.
  induction n as [|n IH]; intros s Hlen Hs rest acc.
  { destruct Hs; cbn [length] in Hlen; try lia. eexists. reflexivity. }
  destruct Hs as [|c s H32 H34 H92 Hs|e s He Hs|a b c d hi s Hhex Hs].
  - eexists. reflexivity.
  - cbn [length] in Hlen. cbn [app read_string].
    rewrite (proj2 (N.eqb_neq c 34) H34), (proj2 (N.eqb_neq c 92) H92),
      (proj2 (N.ltb_ge c 32) H32).
    apply IH; [lia|exact Hs].
  - cbn [length] in Hlen.
    assert (Hs' : (length s <= n)%nat) by lia.
    cbn [In] in He.
    repeat (destruct He as [<-|He]; [exact (IH s Hs' Hs rest _)|]).
    contradiction.
  - cbn [length] in Hlen. cbn [app].
    destruct (read_string_u a b c d hi (s ++ 34%N :: rest) acc Hhex)
      as [E|(h1 & h2 & h3 & h4 & rest3 & x & Hr & E)]; rewrite E.
    + apply IH; [lia|exact Hs].
    + destruct Hs as [|c' s H32 H34 H92 Hs|e s He Hs|a' b' c' d' hi' s Hhex' Hs];
        cbn [app] in Hr.
      * discriminate Hr.
      * injection Hr as -> _. contradiction.
      * injection Hr as -> _. cbn [In] in He.
        repeat (destruct He as [He|He]; [discriminate He|]). contradiction.
      * injection Hr as _ _ _ _ <-. cbn [length] in Hlen.
        apply IH; [lia|exact Hs].
Qed.

Lemma hex_value_hex_digit (n : N) :
  (n < 16)%N -> hex_value (hex_digit n) = Some n.
Proof.
  intros Hn. unfold hex_value, hex_digit, is_digit.
  destruct (N.ltb_spec n 10) as [Hlt|Hge].
  - rewrite (proj2 (N.leb_le 48 (48 + n))) by lia.
    rewrite (proj2 (N.leb_le (48 + n) 57)) by lia.
    cbn [andb]. f_equal. lia.
  - rewrite (proj2 (N.leb_le 48 (87 + n))) by lia.
    rewrite (proj2 (N.leb_gt (87 + n) 57)) by lia.
    rewrite (proj2 (N.leb_le 97 (87 + n))) by lia.
    rewrite (proj2 (N.leb_le (87 + n) 102)) by lia.
    cbn [andb]. f_equal. lia.
Qed.

Lemma escaped_u_escape (c : N) (s : list N) :
  escaped s -> escaped (u_escape c ++ s).
Proof.
  intros Hs. unfold u_escape. cbn [app].
  eapply escaped_u; [|exact Hs]. unfold hex4.
  rewrite !hex_value_hex_digit by (apply N.mod_lt; discriminate).
  reflexivity.
Qed.

Lemma escaped_escape_char (c : N) (s : list N) :
  escaped s -> escaped (escape_char c ++ s).
Proof.
  intros Hs. unfold escape_char.
  destruct (N.eqb_spec c 34) as [->|H34];
    [apply escaped_short; [cbn; tauto|exact Hs]|].
  destruct (N.eqb_spec c 92) as [->|H92];
    [apply escaped_short; [cbn; tauto|exact Hs]|].
  destruct (N.eqb_spec c 10) as [->|_];
    [apply escaped_short; [cbn; tauto|exact Hs]|].
  destruct (N.eqb_spec c 13) as [->|_];
    [apply escaped_short; [cbn; tauto|exact Hs]|].
  destruct (N.eqb_spec c 9) as [->|_];
    [apply escaped_short; [cbn; tauto|exact Hs]|].
  destruct (N.eqb_spec c 8) as [->|_];
    [apply escaped_short; [cbn; tauto|exact Hs]|].
  destruct (N.eqb_spec c 12) as [->|_];
    [apply escaped_short; [cbn; tauto|exact Hs]|].
  destruct ((32 <=? c) && (c <=? 126))%N eqn:E.
  - apply andb_prop in E as [E _]. apply N.leb_le in E.
    apply escaped_plain; assumption.
  - destruct (c <? 65536)%N.
    + apply escaped_u_escape, Hs.
    + rewrite <- app_assoc. apply escaped_u_escape, escaped_u_escape, Hs.
Qed.

Lemma escaped_body (x : list N) : escaped (concat (map escape_char x)).
Proof.
  induction x as [|c x IH]; [constructor|].
  cbn [map concat]. apply escaped_escape_char, IH.
Qed.

(** A string as written, and what follows it. *)
Lemma read_string_written (x rest : list N) :
  exists x',
    read_string (concat (map escape_char x) ++ 34%N :: rest) [] = Some (x', rest).
Proof.
  apply (read_string_escaped _ _ (Nat.le_refl _)), escaped_body.
Qed.

(** Induction on a JSON value, with the hypothesis for every item of an
    array and every member of an object. *)
Lemma json_induction (P : json -> Prop) :
  P JNull ->
  (forall b, P (JBool b)) ->
  (forall n, P (JInt n)) ->
  (forall m e, P (JFloat m e)) ->
  (forall s, P (JString s)) ->
  (forall items, Forall P items -> P (JArray items)) ->
  (forall members, Forall (fun kv => P (snd kv)) members ->
                   P (JObject members)) ->
  forall v, P v.
Proof.
  intros Hnull Hbool Hint Hfloat Hstring Harray Hobject.
  fix IH 1. intros [|b|n|m e|s|items|members].
  - exact Hnull.
  - apply Hbool.
  - apply Hint.
  - apply Hfloat.
  - apply Hstring.
  - apply Harray. induction items as [|x items IHitems].
    + apply List.Forall_nil.
    + apply List.Forall_cons; [apply IH|exact IHitems].
  - apply Hobject. induction members as [|kv members IHmembers].
    + apply List.Forall_nil.
    + apply List.Forall_cons; [apply IH|exact IHmembers].
Qed.

Lemma write_value_head (level : nat) (v : json) :
  exists c t, write_value level v = c :: t /\ starts_value c.
Proof.
  destruct v as [|[|]|z|m e|x|[|x items]|[|kv members]]; cbn [write_value].
  1-3, 6-10: eexists; eexists; (split; [reflexivity|cbn; tauto]).
  - destruct (str_of_Z_shape z) as (u & [Hnil _] & [-> | ->]).
    + digit_cases u; [contradiction|..];
        eexists; eexists; (split; [reflexivity|cbn; tauto]).
    + eexists; eexists; (split; [reflexivity|cbn; tauto]).
  - destruct (str_of_Z_shape m) as (u & [Hnil _] & [-> | ->]).
    + digit_cases u; [contradiction|..];
        eexists; eexists; (split; [reflexivity|cbn; tauto]).
    + eexists; eexists; (split; [reflexivity|cbn; tauto]).
Qed.

Lemma skip_ws_starts (c : N) (t : list N) :
  starts_value c -> skip_ws (c :: t) = c :: t.
Proof.
  intros H. cbn [starts_value In] in H. unfold starts_value in H. cbn [In] in H.
  repeat (destruct H as [<-|H]; [reflexivity|]). contradiction.
Qed.

Lemma skip_ws_written (level : nat) (v : json) (s : list N) :
  skip_ws (write_value level v ++ s) = write_value level v ++ s.
Proof.
  destruct (write_value_head level v) as (c & t & -> & Hc).
  apply skip_ws_starts, Hc.
Qed.

Lemma skip_ws_indent (level : nat) (s : list N) :
  skip_ws (newline_indent level ++ s) = skip_ws s.
Proof.
  unfold newline_indent. generalize (2 * level)%nat. intros n.
  change (skip_ws ((10%N :: repeat 32%N n) ++ s))
    with (skip_ws (repeat 32%N n ++ s)).
  induction n as [|n IH]; [reflexivity|exact IH].
Qed.

Lemma tail_ok_indent (level : nat) (s : list N) :
  tail_ok (newline_indent level ++ s).
Proof. right. reflexivity. Qed.

Lemma read_value_array (fuel : nat) (s : list N) :
  (exists c t, skip_ws s = c :: t /\ starts_value c) ->
  read_value (S fuel) (91%N :: s)
  = match read_items fuel (skip_ws s) [] with
    | Some (xs, rest) => Some (JArray xs, rest)
    | None => None
    end.
Proof.
  intros (c & t & Hs & Hc).
  change (read_value (S fuel) (91%N :: s))
    with (match skip_ws s with
          | 93%N :: rest' => Some (JArray [], rest')
          | rest' =>
              match read_items fuel rest' [] with
              | Some (xs, rest'') => Some (JArray xs, rest'')
              | None => None
              end
          end).
  rewrite Hs. unfold starts_value in Hc. cbn [In] in Hc.
  repeat (destruct Hc as [<-|Hc]; [reflexivity|]). contradiction.
Qed.

Lemma read_value_object (fuel : nat) (s : list N) :
  (exists t, skip_ws s = 34%N :: t) ->
  read_value (S fuel) (123%N :: s)
  = match read_members fuel (skip_ws s) [] with
    | Some (ms, rest) => Some (JObject ms, rest)
    | None => None
    end.
Proof.
  intros [t Hs].
  change (read_value (S fuel) (123%N :: s))
    with (match skip_ws s with
          | 125%N :: rest' => Some (JObject [], rest')
          | rest' =>
              match read_members fuel rest' [] with
              | Some (ms, rest'') => Some (JObject ms, rest'')
              | None => None
              end
          end).
  rewrite Hs. reflexivity.
Qed.

Lemma join_written_head (level : nat) (sep : list N) (x : json)
    (items : list json) (s : list N) :
  skip_ws (join sep (map (write_value level) (x :: items)) ++ s)
  = join sep (map (write_value level) (x :: items)) ++ s.
Proof.
  destruct items as [|y items]; cbn [map join].
  - apply skip_ws_written.
  - rewrite <- app_assoc. apply skip_ws_written.
Qed.

Lemma read_items_written (level : nat) (items : list json) :
  Forall reads_back items -> items <> [] ->
  forall fuel acc rest,
    (list_sum (map (fun x => S (reading_cost x)) items) <= fuel)%nat ->
    exists ys,
      read_items fuel
        (join (lit "," ++ newline_indent (S level))
           (map (write_value (S level)) items)
         ++ newline_indent level ++ 93%N :: rest) acc
      = Some (ys, rest).
Proof.
  intros Hall. induction Hall as [|x items Hx Hall IH]; [contradiction|].
  intros _ fuel acc rest Hfuel.
  change (S (reading_cost x) + list_sum (map (fun x => S (reading_cost x)) items) <= fuel)%nat
    in Hfuel.
  destruct fuel as [|fuel]; [lia|].
  destruct items as [|y items].
  - cbn [map join].
    destruct (Hx (S level) (newline_indent level ++ 93%N :: rest) fuel
                (tail_ok_indent _ _)) as [v' E]; [lia|].
    cbn [read_items]. rewrite E, skip_ws_indent. eexists. reflexivity.
  - set (sep := lit "," ++ newline_indent (S level)) in *.
    change (join sep (map (write_value (S level)) (x :: y :: items)))
      with (write_value (S level) x ++ sep
            ++ join sep (map (write_value (S level)) (y :: items))).
    rewrite <- !app_assoc.
    match goal with
    | |- context [read_items _ (_ ++ ?T) _] =>
        destruct (Hx (S level) T fuel) as [v' E]; [left; reflexivity|lia|]
    end.
    cbn [read_items]. rewrite E.
    change (skip_ws (sep ++ ?t))
      with (44%N :: (newline_indent (S level) ++ t)).
    cbn iota. rewrite skip_ws_indent, join_written_head.
    apply IH; [discriminate|lia].
Qed.

Lemma write_member_shape (level : nat) (kv : list N * json) (s : list N) :
  write_member level kv ++ s
  = 34%N :: concat (map escape_char (fst kv))
    ++ 34%N :: 58%N :: 32%N :: write_value level (snd kv) ++ s.
Proof.
  unfold write_member, write_string. rewrite <- !app_assoc. reflexivity.
Qed.

Lemma join_member_shape (level : nat) (sep : list N) (kv : list N * json)
    (members : list (list N * json)) (s : list N) :
  exists t,
    join sep (map (write_member level) (kv :: members)) ++ s = 34%N :: t.
Proof.
  destruct members as [|kv' members]; cbn [map join].
  - rewrite write_member_shape. eexists. reflexivity.
  - rewrite <- app_assoc, write_member_shape. eexists. reflexivity.
Qed.

Lemma join_member_head (level : nat) (sep : list N) (kv : list N * json)
    (members : list (list N * json)) (s : list N) :
  skip_ws (join sep (map (write_member level) (kv :: members)) ++ s)
  = join sep (map (write_member level) (kv :: members)) ++ s.
Proof.
  destruct (join_member_shape level sep kv members s) as [t ->]. reflexivity.
Qed.

Lemma read_members_written (level : nat) (members : list (list N * json)) :
  Forall (fun kv => reads_back (snd kv)) members -> members <> [] ->
  forall fuel acc rest,
    (list_sum (map (fun kv => S (reading_cost (snd kv))) members) <= fuel)%nat ->
    exists ms,
      read_members fuel
        (join (lit "," ++ newline_indent (S level))
           (map (write_member (S level)) members)
         ++ newline_indent level ++ 125%N :: rest) acc
      = Some (ms, rest).
Proof.
  intros Hall. induction Hall as [|kv members Hkv Hall IH]; [contradiction|].
  intros _ fuel acc rest Hfuel.
  change (S (reading_cost (snd kv))
          + list_sum (map (fun kv => S (reading_cost (snd kv))) members) <= fuel)%nat
    in Hfuel.
  destruct fuel as [|fuel]; [lia|].
  set (sep := lit "," ++ newline_indent (S level)) in *.
  destruct members as [|kv' members].
  - cbn [map join]. rewrite write_member_shape.
    cbn [read_members].
    match goal with
    | |- context [read_string (_ ++ 34%N :: ?R) []] =>
        destruct (read_string_written (fst kv) R) as [key E]
    end.
    rewrite E.
    change (skip_ws (58%N :: 32%N :: ?t)) with (58%N :: 32%N :: t). cbn iota.
    change (skip_ws (32%N :: ?t)) with (skip_ws t).
    rewrite skip_ws_written.
    destruct (Hkv (S level) (newline_indent level ++ 125%N :: rest) fuel
                (tail_ok_indent _ _)) as [v' E']; [lia|].
    rewrite E', skip_ws_indent. eexists. reflexivity.
  - change (join sep (map (write_member (S level)) (kv :: kv' :: members)))
      with (write_member (S level) kv ++ sep
            ++ join sep (map (write_member (S level)) (kv' :: members))).
    rewrite <- !app_assoc, write_member_shape.
    cbn [read_members].
    match goal with
    | |- context [read_string (_ ++ 34%N :: ?R) []] =>
        destruct (read_string_written (fst kv) R) as [key E]
    end.
    rewrite E.
    change (skip_ws (58%N :: 32%N :: ?t)) with (58%N :: 32%N :: t). cbn iota.
    change (skip_ws (32%N :: ?t)) with (skip_ws t).
    rewrite skip_ws_written.
    match goal with
    | |- context [read_value _ (_ ++ ?T)] =>
        destruct (Hkv (S level) T fuel) as [v' E']; [left; reflexivity|lia|]
    end.
    rewrite E'.
    change (skip_ws (sep ++ ?t))
      with (44%N :: (newline_indent (S level) ++ t)).
    cbn iota. rewrite skip_ws_indent, join_member_head.
    apply IH; [discriminate|lia].
Qed.

Lemma join_written_starts (level : nat) (sep : list N) (x : json)
    (items : list json) (s : list N) :
  exists c t,
    join sep (map (write_value level) (x :: items)) ++ s = c :: t /\
    starts_value c.
Proof.
  destruct (write_value_head level x) as (c & t & E & Hc).
  destruct items as [|y items]; cbn [map join]; rewrite E;
    eexists; eexists; (split; [reflexivity|exact Hc]).
Qed.

(** Every value is read back from what the writer makes of it, at any
    depth and before anything that may follow a value. *)
Lemma read_value_written (v : json) : reads_back v.
Proof.
  induction v as [|b|z|m e|x|items IH|members IH] using json_induction;
    intros level rest fuel Hrest Hfuel;
    (destruct fuel as [|fuel]; [cbn [reading_cost] in Hfuel; lia|]).
  - eexists. reflexivity.
  - destruct b; eexists; reflexivity.
  - cbn [write_value]. rewrite read_value_number.
    apply read_number_int, Hrest.
  - cbn [write_value]. rewrite <- !app_assoc.
    change (lit "e" ++ ?t) with (101%N :: t).
    rewrite read_value_number. apply read_number_float, Hrest.
  - cbn [write_value]. unfold write_string. rewrite <- !app_assoc.
    change (read_value (S fuel) ([34%N] ++ ?body ++ [34%N] ++ rest))
      with (match read_string (body ++ 34%N :: rest) [] with
            | Some (x, rest') => Some (JString x, rest')
            | None => None
            end).
    destruct (read_string_written x rest) as [x' E]. rewrite E.
    eexists. reflexivity.
  - destruct items as [|x items]; [eexists; reflexivity|].
    cbn [reading_cost] in Hfuel.
    change (write_value level (JArray (x :: items)))
      with (lit "[" ++ newline_indent (S level)
            ++ join (lit "," ++ newline_indent (S level))
                 (map (write_value (S level)) (x :: items))
            ++ newline_indent level ++ lit "]").
    rewrite <- !app_assoc.
    change (lit "[" ++ ?t) with (91%N :: t).
    change (lit "]" ++ rest) with (93%N :: rest).
    rewrite read_value_array, skip_ws_indent, join_written_head.
    + destruct (read_items_written level (x :: items) IH) with
        (fuel := fuel) (acc := @nil json) (rest := rest) as [ys E];
        [discriminate|lia|].
      rewrite E. eexists. reflexivity.
    + rewrite skip_ws_indent, join_written_head.
      apply join_written_starts.
  - destruct members as [|kv members]; [eexists; reflexivity|].
    cbn [reading_cost] in Hfuel.
    change (write_value level (JObject (kv :: members)))
      with (lit "{" ++ newline_indent (S level)
            ++ join (lit "," ++ newline_indent (S level))
                 (map (write_member (S level)) (kv :: members))
            ++ newline_indent level ++ lit "}").
    rewrite <- !app_assoc.
    change (lit "{" ++ ?t) with (123%N :: t).
    change (lit "}" ++ rest) with (125%N :: rest).
    rewrite read_value_object, skip_ws_indent, join_member_head.
    + destruct (read_members_written level (kv :: members) IH) with
        (fuel := fuel) (acc := @nil (list N * json)) (rest := rest)
        as [ms E]; [discriminate|lia|].
      rewrite E. eexists. reflexivity.
    + rewrite skip_ws_indent, join_member_head.
      apply join_member_shape.
Qed.

Lemma join_reading_cost_bound {A : Type} (f : A -> list N) (g : A -> nat)
    (sep : list N) (items : list A) :
  (1 <= length sep)%nat ->
  Forall (fun x => (g x <= length (f x))%nat) items ->
  (list_sum (map (fun x => S (g x)) items)
   <= length (join sep (map f items)) + 1)%nat.
Proof.
  intros Hsep Hall. induction Hall as [|x items Hx Hall IH]; [cbn; lia|].
  change (list_sum (map (fun x => S (g x)) (x :: items)))
    with (S (g x) + list_sum (map (fun x => S (g x)) items))%nat.
  destruct items as [|y items].
  - cbn [map join]. change (list_sum (@nil nat)) with 0%nat. lia.
  - change (join sep (map f (x :: y :: items)))
      with (f x ++ sep ++ join sep (map f (y :: items))).
    rewrite !length_app. lia.
Qed.

Lemma reading_cost_le_length (v : json) :
  forall level, (reading_cost v <= length (write_value level v))%nat.
Proof.
  induction v as [|b|z|m e|x|items IH|members IH] using json_induction;
    intros level.
  1-5: match goal with
       | |- (_ <= length (write_value ?l ?v))%nat =>
           destruct (write_value_head l v) as (c & t & -> & _)
       end; cbn [reading_cost length]; lia.
  - destruct items as [|x items]; [cbn; lia|].
    cbn [reading_cost].
    change (write_value level (JArray (x :: items)))
      with ([91%N] ++ newline_indent (S level)
            ++ join (lit "," ++ newline_indent (S level))
                 (map (write_value (S level)) (x :: items))
            ++ newline_indent level ++ [93%N]).
    rewrite !length_app. cbn [length].
    pose proof (join_reading_cost_bound (write_value (S level)) reading_cost
                  (lit "," ++ newline_indent (S level)) (x :: items)) as H.
    cbv beta in H. 
    assert (H1 : (1 <= length (lit "," ++ newline_indent (S level)))%nat)
      by (cbn; lia).
    specialize (H H1). 
    assert (H2 : Forall (fun x => (reading_cost x <= length (write_value (S level) x))%nat)
                   (x :: items)).
    { eapply Forall_impl; [exact IH|]. intros y Hy. apply Hy. }
    specialize (H H2). lia.
  - destruct members as [|kv members]; [cbn; lia|].
    cbn [reading_cost].
    change (write_value level (JObject (kv :: members)))
      with ([123%N] ++ newline_indent (S level)
            ++ join (lit "," ++ newline_indent (S level))
                 (map (write_member (S level)) (kv :: members))
            ++ newline_indent level ++ [125%N]).
    rewrite !length_app. cbn [length].
    pose proof (join_reading_cost_bound (write_member (S level))
                  (fun kv => reading_cost (snd kv))
                  (lit "," ++ newline_indent (S level)) (kv :: members)) as H.
    cbv beta in H.
    assert (H1 : (1 <= length (lit "," ++ newline_indent (S level)))%nat)
      by (cbn; lia).
    specialize (H H1).
    assert (H2 : Forall (fun kv => (reading_cost (snd kv)
                                    <= length (write_member (S level) kv))%nat)
                   (kv :: members)).
    { eapply Forall_impl; [exact IH|]. intros y Hy. cbv beta in Hy.
      unfold write_member. rewrite !length_app. specialize (Hy (S level)). lia. }
    specialize (H H2). lia.
Qed.

(** What the writer makes of a value, the reader accepts. *)
Lemma loads_dumps_accepts (v : json) : exists v', loads (dumps v) = Some v'.
Proof.
  unfold loads, dumps.
  pose proof (skip_ws_written 0 v []) as Hskip. rewrite app_nil_r in Hskip.
  rewrite Hskip.
  destruct (read_value_written v 0%nat []
              (2 * length (write_value 0 v) + 2)%nat I)
    as [v' E]; [pose proof (reading_cost_le_length v 0%nat); lia|].
  rewrite app_nil_r in E. rewrite E. exists v'. reflexivity.
Qed.

Lemma digits_last (u : Decimal.uint) :
  u = Decimal.Nil \/ exists t c, decimal_digits u = t ++ [c] /\ ends_value c.
Proof.
  induction u as [|u IH|u IH|u IH|u IH|u IH|u IH|u IH|u IH|u IH|u IH];
    [left; reflexivity|..]; right.
  all: match goal with
       | |- context [decimal_digits (?D ?x)] =>
           let d := eval vm_compute in (hd 0%N (decimal_digits (D Decimal.Nil))) in
           change (decimal_digits (D x)) with (d :: decimal_digits x)
       end.
  all: destruct IH as [->|(t & c & -> & Hc)];
    [eexists [], _; split; [reflexivity|cbn; tauto]
    |eexists (_ :: t), c; split; [reflexivity|exact Hc]].
Qed.

Lemma str_of_Z_last (z : Z) :
  exists t c, str_of_Z z = t ++ [c] /\ ends_value c.
Proof.
  destruct (str_of_Z_shape z) as (u & [Hnil _] & [-> | ->]);
    destruct (digits_last u) as [?|(t & c & -> & Hc)]; try contradiction.
  - exists t, c. auto.
  - exists (45%N :: t), c. auto.
Qed.

Lemma write_value_last (level : nat) (v : json) :
  exists t c, write_value level v = t ++ [c] /\ ends_value c.
Proof.
  destruct v as [|[|]|z|m e|x|[|x items]|[|kv members]].
  - exists (lit "nul"), 108%N. split; [reflexivity|cbn; tauto].
  - exists (lit "tru"), 101%N. split; [reflexivity|cbn; tauto].
  - exists (lit "fals"), 101%N. split; [reflexivity|cbn; tauto].
  - apply str_of_Z_last.
  - cbn [write_value]. destruct (str_of_Z_last e) as (t & c & -> & Hc).
    exists (str_of_Z m ++ lit "e" ++ t), c.
    rewrite <- !app_assoc. auto.
  - exists ([34%N] ++ concat (map escape_char x)), 34%N.
    split; [|cbn; tauto].
    cbn [write_value]. unfold write_string. rewrite <- app_assoc. reflexivity.
  - exists [91%N], 93%N. split; [reflexivity|cbn; tauto].
  - exists (lit "[" ++ newline_indent (S level)
            ++ join (lit "," ++ newline_indent (S level))
                 (map (write_value (S level)) (x :: items))
            ++ newline_indent level), 93%N.
    split; [|cbn; tauto]. rewrite <- !app_assoc. reflexivity.
  - exists [123%N], 125%N. split; [reflexivity|cbn; tauto].
  - exists (lit "{" ++ newline_indent (S level)
            ++ join (lit "," ++ newline_indent (S level))
                 (map (write_member (S level)) (kv :: members))
            ++ newline_indent level), 125%N.
    split; [|cbn; tauto]. rewrite <- !app_assoc. reflexivity.
Qed.

(** The writer puts no white space around a value: [strip] leaves what it
    writes as it is. *)
Lemma strip_dumps (v : json) : strip (dumps v) = dumps v.
Proof.
  unfold dumps, strip, rstrip.
  assert (Hl : lstrip (write_value 0 v) = write_value 0 v).
  { apply lstrip_fixed.
    destruct (write_value_head 0 v) as (c & t & -> & Hc).
    unfold starts_value in Hc. cbn [In] in Hc.
    repeat (destruct Hc as [<-|Hc]; [reflexivity|]). contradiction. }
  rewrite Hl.
  destruct (write_value_last 0 v) as (t & c & E & Hc). rewrite E at 1.
  rewrite rev_app_distr. cbn [rev app].
  rewrite lstrip_fixed.
  - change (c :: rev t) with (rev [c] ++ rev t).
    rewrite <- rev_app_distr, rev_involutive. symmetry. exact E.
  - unfold ends_value in Hc. cbn [In] in Hc.
    repeat (destruct Hc as [<-|Hc]; [reflexivity|]). contradiction.
Qed.

End RefJsonFacts.



(** The reference codec on the reports above: what it writes of a value it
    read, it reads back as that value. *)
Example reference_codec_reads_back :
  Forall
    (fun report =>
       match RefJson.loads report with
       | Some data => RefJson.loads (RefJson.dumps data) = Some data
       | None => False
       end)
    [complete_report; report_without_status; report_with_priority_7;
     report_with_empty_selector].
Proof. repeat constructor; vm_compute; reflexivity. Qed.

(* --------------------------------------------------------------------- *)
(** ** Where [main] writes the report *)
(* --------------------------------------------------------------------- *)

Lemma report_file_name_explicit (script url : list N) (rest : list (list N)) :
  report_file_name (script :: url :: rest) = normalize_file_name url.
Proof.
  unfold report_file_name. cbn [argv1_or].
  destruct (decide (url = default_file_name)) as [->|Hne].
  - vm_compute. reflexivity.
  - rewrite bool_decide_eq_false_2 by exact Hne. reflexivity.
Qed.

(** C7, at the failing input.  Run without an argument, the script prepares
    the directory named after the normalised default URL,
    [../selectors/www.grass-direct.co.uk], and then opens the report in
    [../selectors/www.grass-direct.co.uk.json], a directory it never made:
    the write raises [FileNotFoundError] and no file is written, although
    the response holds a report that parses.  Run for an explicit URL on
    the same response, it writes the report under the normalised URL. *)
Theorem default_url_report_is_not_persisted :
  normalize_file_name default_url = lit "www.grass-direct.co.uk" /\
  report_file_name [script_name] = lit "www.grass-direct.co.uk.json" /\
  fst default_run = Raised FileNotFoundError /\
  files (snd default_run) = ∅ /\
  bool_decide (selectors_dir (lit "www.grass-direct.co.uk") ∈ dirs (snd default_run))
  = true /\
  bool_decide (parent_dir (report_path (report_file_name [script_name]))
               ∈ dirs (snd default_run))
  = false /\
  fst shop_run = Returned tt /\
  files (snd shop_run) !! report_path (normalize_file_name shop_url)
  = Some complete_report /\
  option_map spec_violations (RefJson.loads complete_report) = Some [].
Proof. repeat split; vm_compute; reflexivity. Qed.

(* ===================================================================== *)
(** * Further properties of the three functions *)
(* ===================================================================== *)

(* --------------------------------------------------------------------- *)
(** ** [normalize_file_name] *)
(* --------------------------------------------------------------------- *)

Lemma existsb_slash_false (s : list N) :
  existsb (N.eqb 47) s = false <-> ~ In 47%N s.
Proof.
  split.
  - intros E Hin. assert (H : existsb (N.eqb 47) s = true).
    { apply existsb_exists. exists 47%N. split; [exact Hin|apply N.eqb_refl]. }
    congruence.
  - intros Hnot. destruct (existsb (N.eqb 47) s) eqn:E; [|reflexivity].
    apply existsb_exists in E as (x & Hin & Hx). apply N.eqb_eq in Hx.
    subst x. contradiction.
Qed.

(** Dropping the rest of a match: with [skip] characters of a match left,
    the scan resumes after them. *)
Lemma replace_from_skip (old new p s : list N) :
  replace_from old new (length p) (p ++ s) = replace_from old new 0 s.
Proof.
  induction p as [|c p IH]; [destruct s; reflexivity|].
  cbn [length app replace_from]. exact IH.
Qed.

Lemma starts_with_self (p s : list N) : starts_with p (p ++ s) = true.
Proof.
  induction p as [|c p IH]; [reflexivity|].
  cbn [app starts_with]. rewrite N.eqb_refl. exact IH.
Qed.

(** A text that begins with the pattern loses it, and the scan goes on
    behind it. *)
Lemma replace_leading (c : N) (old new s : list N) :
  replace (c :: old) new ((c :: old) ++ s) = new ++ replace (c :: old) new s.
Proof.
  unfold replace. cbn [app replace_from].
  change (c :: old ++ s) with ((c :: old) ++ s).
  rewrite starts_with_self. cbn [length Nat.sub]. rewrite Nat.sub_0_r.
  rewrite replace_from_skip. reflexivity.
Qed.

Lemma replace_from_delete_length (old s : list N) :
  forall skip,
    (length (replace_from old [] skip s) <= length s)%nat.
Proof.
  induction s as [|c s IH]; intros skip; cbn [replace_from length]; [lia|].
  destruct skip as [|k].
  - destruct (starts_with old (c :: s)); cbn [app length].
    + specialize (IH (length old - 1)%nat). lia.
    + specialize (IH 0%nat). lia.
  - specialize (IH k). lia.
Qed.

(** X1.  A normalised name holds no slash: it is a single path component,
    whatever the input. *)
Theorem normalize_file_name_has_no_slash (s : list N) :
  existsb (N.eqb 47) (normalize_file_name s) = false.
Proof. apply existsb_slash_false, slash_free_normalize. Qed.

(** X2.  The names that [normalize_file_name] leaves as they are, are
    exactly the names without a slash. *)
Theorem normalize_file_name_fixed_points (s : list N) :
  normalize_file_name s = s <-> existsb (N.eqb 47) s = false.
Proof.
  split.
  - intros <-. apply existsb_slash_false, slash_free_normalize.
  - intros Hs. apply existsb_slash_false in Hs. unfold normalize_file_name.
    rewrite (replace_absent 47%N (lit "https://") [] s); [|vm_compute; tauto|exact Hs].
    rewrite (replace_absent 47%N (lit "http://") [] s); [|vm_compute; tauto|exact Hs].
    apply (replace_absent 47%N); [vm_compute; tauto|exact Hs].
Qed.

(** X3.  The scheme does not matter: a URL with a leading [https://] or a
    leading [http://] is given the name of the URL without it, so both
    forms of a URL share one directory. *)
Theorem normalize_file_name_drops_scheme (s : list N) :
  normalize_file_name (lit "https://" ++ s) = normalize_file_name s /\
  normalize_file_name (lit "http://" ++ s) = normalize_file_name s.
Proof.
  unfold normalize_file_name. split.
  - change (lit "https://") with (104%N :: lit "ttps://").
    rewrite replace_leading. reflexivity.
  - assert (H : replace (lit "https://") [] (lit "http://" ++ s)
                = lit "http://" ++ replace (lit "https://") [] s).
    { unfold replace.
      change (lit "https://") with [104; 116; 116; 112; 115; 58; 47; 47]%N.
      change (lit "http://") with [104; 116; 116; 112; 58; 47; 47]%N.
      cbn [app replace_from starts_with N.eqb Pos.eqb]. reflexivity. }
    rewrite H. change (lit "http://") with (104%N :: lit "ttp://").
    rewrite replace_leading. reflexivity.
Qed.

(** X4.  Normalising only deletes: the name is never longer than the
    input. *)
Theorem normalize_file_name_never_longer (s : list N) :
  (length (normalize_file_name s) <= length s)%nat.
Proof.
  unfold normalize_file_name, replace.
  change (lit "/") with [47%N].
  change (lit "http://") with (104%N :: lit "ttp://").
  change (lit "https://") with (104%N :: lit "ttps://").
  cbv iota.
  pose proof (replace_from_delete_length (104%N :: lit "ttps://") s 0) as H1.
  pose proof (replace_from_delete_length (104%N :: lit "ttp://")
                (replace_from (104%N :: lit "ttps://") [] 0 s) 0) as H2.
  pose proof (replace_from_delete_length [47%N]
                (replace_from (104%N :: lit "ttp://") []
                   0 (replace_from (104%N :: lit "ttps://") [] 0 s)) 0) as H3.
  lia.
Qed.

(** X5.  The directory name [main] writes the report under never holds a
    slash, whatever is on the command line: the report path is always
    [../selectors/<one component>/pv_to_atc.json]. *)
Theorem report_file_name_has_no_slash (argv : list (list N)) :
  existsb (N.eqb 47) (report_file_name argv) = false.
Proof.
  unfold report_file_name. cbv zeta.
  destruct (decide (argv1_or argv default_file_name = default_file_name))
    as [E|NE].
  - rewrite bool_decide_eq_true_2 by exact E. rewrite E.
    vm_compute. reflexivity.
  - rewrite bool_decide_eq_false_2 by exact NE.
    apply existsb_slash_false, slash_free_normalize.
Qed.

(* --------------------------------------------------------------------- *)
(** ** [wait_for_dom_stability] *)
(* --------------------------------------------------------------------- *)

Section DetectorEdges.

Variable check_interval : Q.
Variable stable_iterations : Z.

(** One turn of the loop, with the monad spelled out. *)
Ltac loop_step :=
  cbn [stability_loop]; unfold bind, page_content, sleep, print, ret;
  cbn [stdout dirs files page_calls slept].

(** The loop leaves directories and files alone, also when it raises. *)
Lemma stability_loop_frame (page : nat -> list N) (n : nat) :
  forall last_size stable_count w,
  exists r w',
    stability_loop page check_interval stable_iterations n
      last_size stable_count w = (r, w') /\
    dirs w' = dirs w /\ files w' = files w.
Proof.
  induction n as [|n IH]; intros L C w.
  - exists (Returned false), w. auto.
  - loop_step.
    destruct (_ =? L); [destruct (C + 1 >=? stable_iterations)|];
      try (eexists; eexists; split; [reflexivity|split; reflexivity]);
      (destruct (Qlt_le_dec check_interval 0);
       [eexists; eexists; split; [reflexivity|split; reflexivity]|]).
    + match goal with
      | |- context [stability_loop page _ _ n ?L' ?C' ?w1] =>
          destruct (IH L' C' w1) as (r & w' & -> & Hd & Hf)
      end.
      exists r, w'. destruct r as [v|e]; auto.
    + match goal with
      | |- context [stability_loop page _ _ n ?L' ?C' ?w1] =>
          destruct (IH L' C' w1) as (r & w' & -> & Hd & Hf)
      end.
      exists r, w'. destruct r as [v|e]; auto.
Qed.

(** The loop reads the sizes of the page and nothing else of it. *)
Lemma stability_loop_sizes_only (page1 page2 : nat -> list N) (n : nat) :
  forall last_size stable_count w,
    (forall j, (j < n)%nat ->
       length (page1 (page_calls w + j)%nat)
       = length (page2 (page_calls w + j)%nat)) ->
    stability_loop page1 check_interval stable_iterations n
      last_size stable_count w
    = stability_loop page2 check_interval stable_iterations n
        last_size stable_count w.
Proof.
  induction n as [|n IH]; intros L C w Hsame; [reflexivity|].
  pose proof (Hsame 0%nat ltac:(lia)) as H0. rewrite Nat.add_0_r in H0.
  assert (Hnext : forall L' C',
    stability_loop page1 check_interval stable_iterations n L' C'
      (mkWorld (stdout w) (dirs w) (files w) (S (page_calls w))
         (slept w ++ [check_interval]))
    = stability_loop page2 check_interval stable_iterations n L' C'
        (mkWorld (stdout w) (dirs w) (files w) (S (page_calls w))
           (slept w ++ [check_interval]))).
  { intros L' C'. apply IH. intros j Hj. cbn [page_calls].
    specialize (Hsame (S j) ltac:(lia)).
    rewrite Nat.add_succ_r in Hsame. exact Hsame. }
  loop_step. rewrite H0.
  destruct (_ =? L); [destruct (C + 1 >=? stable_iterations)|];
    try reflexivity;
    (destruct (Qlt_le_dec check_interval 0); [reflexivity|]);
    rewrite Hnext; reflexivity.
Qed.

(** With a threshold of at most 1 the loop stops at the first repeated
    size, as with a threshold of 1. *)
Lemma stability_loop_low_threshold (page : nat -> list N) (n : nat) :
  stable_iterations <= 1 ->
  forall last_size stable_count w,
    0 <= stable_count ->
    stability_loop page check_interval stable_iterations n
      last_size stable_count w
    = stability_loop page check_interval 1 n last_size stable_count w.
Proof.
  intros Hlow. induction n as [|n IH]; intros L C w HC; [reflexivity|].
  loop_step.
  destruct (_ =? L).
  - destruct (Z.geb_spec (C + 1) stable_iterations) as [_|Hlt]; [|lia].
    destruct (Z.geb_spec (C + 1) 1) as [_|Hlt]; [reflexivity|lia].
  - destruct (Qlt_le_dec check_interval 0); [reflexivity|].
    rewrite IH by lia. reflexivity.
Qed.

End DetectorEdges.

(** X6.  The detector changes neither directories nor files, whatever its
    arguments and also when it raises: all it does to the world is call
    [page.content()], sleep and print. *)
Theorem wait_for_dom_stability_leaves_files_alone
    (page : nat -> list N) (check_interval : Q) (stable_iterations : Z)
    (timeout : Q) (w : World) :
  dirs (snd (wait_for_dom_stability page check_interval stable_iterations
               timeout w)) = dirs w /\
  files (snd (wait_for_dom_stability page check_interval stable_iterations
                timeout w)) = files w.
Proof.
  unfold wait_for_dom_stability, bind, int_floordiv.
  destruct (Qeq_bool check_interval 0); [split; reflexivity|].
  unfold ret.
  destruct (stability_loop_frame check_interval stable_iterations page
              (Z.to_nat (Qfloor (timeout / check_interval))) (-1) 0 w)
    as (r & w' & -> & Hd & Hf).
  destruct r as [[|]|e]; cbn [fst snd dirs files print]; auto.
Qed.

(** X7.  The detector looks at sizes only.  Two pages whose contents have
    the same length at each of the [int(timeout // check_interval)] samples
    make it do the same: a page that changes without changing its size is
    taken for a page that does not change. *)
Theorem wait_for_dom_stability_sees_sizes_only
    (page1 page2 : nat -> list N) (check_interval : Q)
    (stable_iterations : Z) (timeout : Q) (w : World) :
  (forall j, (j < Z.to_nat (Qfloor (timeout / check_interval)))%nat ->
     sample page1 w j = sample page2 w j) ->
  wait_for_dom_stability page1 check_interval stable_iterations timeout w
  = wait_for_dom_stability page2 check_interval stable_iterations timeout w.
Proof.
  intros Hsame. unfold wait_for_dom_stability, bind, int_floordiv.
  destruct (Qeq_bool check_interval 0); [reflexivity|].
  unfold ret.
  rewrite (stability_loop_sizes_only check_interval stable_iterations
             page1 page2); [reflexivity|].
  intros j Hj. specialize (Hsame j Hj). unfold sample, sizes_from in Hsame.
  lia.
Qed.

(** X8.  A threshold of 1, 0 or less is a threshold of 1: the detector
    then reports the page settled as soon as one size repeats the one
    before. *)
Theorem wait_for_dom_stability_low_threshold
    (page : nat -> list N) (check_interval : Q) (stable_iterations : Z)
    (timeout : Q) (w : World) :
  stable_iterations <= 1 ->
  wait_for_dom_stability page check_interval stable_iterations timeout w
  = wait_for_dom_stability page check_interval 1 timeout w.
Proof.
  intros Hlow. unfold wait_for_dom_stability, bind, int_floordiv.
  destruct (Qeq_bool check_interval 0); [reflexivity|].
  unfold ret.
  rewrite (stability_loop_low_threshold check_interval stable_iterations
             page _ Hlow) by lia.
  reflexivity.
Qed.

(** X9.  A zero interval makes the detector raise [ZeroDivisionError]
    before it takes a sample, sleeps or prints. *)
Theorem wait_for_dom_stability_zero_interval
    (page : nat -> list N) (check_interval : Q) (stable_iterations : Z)
    (timeout : Q) (w : World) :
  (check_interval == 0)%Q ->
  wait_for_dom_stability page check_interval stable_iterations timeout w
  = (Raised ZeroDivisionError, w).
Proof.
  intros Hzero. unfold wait_for_dom_stability, bind, int_floordiv.
  rewrite (proj2 (Qeq_bool_iff check_interval 0) Hzero). reflexivity.
Qed.

(** Markup of the same sizes as the scenario. *)
Lemma wait_for_dom_stability_sees_sizes_only_witness :
  wait_for_dom_stability scenario_page (1 # 2) 3 5 initial_world
  = wait_for_dom_stability relabelled_page (1 # 2) 3 5 initial_world.
Proof.
  apply (wait_for_dom_stability_sees_sizes_only
           scenario_page relabelled_page (1 # 2) 3 5 initial_world).
  intros j _. unfold sample, sizes_from, relabelled_page.
  rewrite repeat_length. reflexivity.
Defined.

(** A threshold of 0. *)
Lemma wait_for_dom_stability_low_threshold_witness :
  wait_for_dom_stability scenario_page (1 # 2) 0 5 initial_world
  = wait_for_dom_stability scenario_page (1 # 2) 1 5 initial_world.
Proof.
  apply (wait_for_dom_stability_low_threshold
           scenario_page (1 # 2) 0 5 initial_world).
  lia.
Defined.

(** An interval of 0. *)
Lemma wait_for_dom_stability_zero_interval_witness :
  wait_for_dom_stability scenario_page 0 3 5 initial_world
  = (Raised ZeroDivisionError, initial_world).
Proof.
  apply (wait_for_dom_stability_zero_interval
           scenario_page 0 3 5 initial_world).
  reflexivity.
Defined.

Lemma Qfloor_quotient_of_negatives (a c : Q) :
  (c < 0)%Q -> (a <= c)%Q -> 1 <= Qfloor (a / c).
Proof.
  intros Hc Hac.
  assert (Hne : ~ (c == 0)%Q).
  { intros E. rewrite E in Hc. exact (Qlt_irrefl 0 Hc). }
  assert (Hpos : (0 < - c)%Q).
  { apply (Qopp_lt_compat c 0) in Hc. exact Hc. }
  assert (H1 : (1 <= (- a) / (- c))%Q).
  { apply Qle_shift_div_l; [exact Hpos|]. rewrite Qmult_1_l.
    apply Qopp_le_compat. exact Hac. }
  assert (E : ((- a) / (- c) == a / c)%Q) by (field; exact Hne).
  rewrite E in H1. apply Qfloor_resp_le in H1.
  change 1%Q with (inject_Z 1) in H1. rewrite Qfloor_Z in H1. exact H1.
Qed.

(** X10.  With a negative interval and a timeout at or below it, so that
    [int(timeout // check_interval)] is at least 1, the detector takes one
    sample and then raises [ValueError] from [time.sleep]: nothing is
    printed. *)
Theorem wait_for_dom_stability_negative_interval
    (page : nat -> list N) (check_interval : Q) (stable_iterations : Z)
    (timeout : Q) (w : World) :
  (check_interval < 0)%Q ->
  (timeout <= check_interval)%Q ->
  wait_for_dom_stability page check_interval stable_iterations timeout w
  = (Raised ValueError,
     mkWorld (stdout w) (dirs w) (files w) (S (page_calls w)) (slept w)).
Proof.
  intros Hneg Hle.
  pose proof (Qfloor_quotient_of_negatives timeout check_interval Hneg Hle)
    as Hfl.
  unfold wait_for_dom_stability, bind, int_floordiv.
  destruct (Qeq_bool check_interval 0) eqn:E.
  { apply Qeq_bool_iff in E. rewrite E in Hneg.
    exfalso. exact (Qlt_irrefl 0 Hneg). }
  unfold ret.
  destruct (Z.to_nat (Qfloor (timeout / check_interval))) as [|m] eqn:EM;
    [lia|].
  cbn [stability_loop]. unfold bind, page_content, sleep.
  destruct (Z.eqb_spec (Z.of_nat (length (page (page_calls w)))) (-1)) as [Hm|_];
    [lia|].
  destruct (Qlt_le_dec check_interval 0) as [_|Hge]; [reflexivity|].
  exfalso. exact (Qlt_not_le _ _ Hneg Hge).
Qed.

(** An interval of minus half a second and a timeout of minus five. *)
Lemma wait_for_dom_stability_negative_interval_witness :
  wait_for_dom_stability scenario_page (- (1 # 2)) 3 (- 5) initial_world
  = (Raised ValueError, mkWorld [] ∅ ∅ 1 []).
Proof.
  apply (wait_for_dom_stability_negative_interval
           scenario_page (- (1 # 2)) 3 (- 5) initial_world).
  - reflexivity.
  - vm_compute. discriminate.
Defined.

Lemma streak_le (s : nat -> Z) (i : nat) : streak s i <= Z.of_nat i.
Proof.
  induction i as [|i IH]; cbn [streak]; [lia|].
  destruct (s (S i) =? s i); lia.
Qed.

(** X11.  With a positive interval the detector prints exactly one line
    and returns.  Either it says that the DOM has stabilized, and then it
    has taken at least [max(1, stable_iterations) + 1] samples and at most
    [int(timeout // check_interval)]; or it warns that the DOM may not be
    stable, and then it has taken all [int(timeout // check_interval)]
    samples (none when that number is negative). *)
Theorem wait_for_dom_stability_outcomes
    (page : nat -> list N) (check_interval : Q) (stable_iterations : Z)
    (timeout : Q) (w : World) :
  (0 < check_interval)%Q ->
  exists w',
    wait_for_dom_stability page check_interval stable_iterations timeout w
    = (Returned tt, w') /\
    ((stdout w' = stdout w ++ [stabilized_line] /\
      (page_calls w <= page_calls w')%nat /\
      Z.max 1 stable_iterations + 1
      <= Z.of_nat (page_calls w' - page_calls w)
      <= Qfloor (timeout / check_interval))
     \/
     (stdout w' = stdout w ++ [warning_line] /\
      page_calls w'
      = (page_calls w + Z.to_nat (Qfloor (timeout / check_interval)))%nat)).
Proof.
  intros Hpos.
  rewrite wait_for_dom_stability_run by assumption. cbn zeta.
  set (M := Z.to_nat (Qfloor (timeout / check_interval))).
  pose proof (settle_after_spec (sample page w) stable_iterations
                (sample_nonneg page w) M 0 (-1) 0) as Hspec.
  destruct (settle_after (sample page w) stable_iterations M 0 (-1) 0) as [j|].
  - destruct Hspec as (i & -> & Hi & Hmax & _); [left; auto|].
    pose proof (streak_le (sample page w) i) as Hle.
    eexists. split; [reflexivity|]. left. cbn [stdout page_calls].
    split; [reflexivity|]. subst M. lia.
  - eexists. split; [reflexivity|]. right. cbn [stdout page_calls].
    split; reflexivity.
Qed.

(** The defaults of the script on the scenario. *)
Lemma wait_for_dom_stability_outcomes_witness :
  exists w',
    wait_for_dom_stability scenario_page (1 # 2) 3 5 initial_world
    = (Returned tt, w') /\
    ((stdout w' = stdout initial_world ++ [stabilized_line] /\
      (page_calls initial_world <= page_calls w')%nat /\
      Z.max 1 3 + 1
      <= Z.of_nat (page_calls w' - page_calls initial_world)
      <= Qfloor (5 / (1 # 2)))
     \/
     (stdout w' = stdout initial_world ++ [warning_line] /\
      page_calls w'
      = (page_calls initial_world + Z.to_nat (Qfloor (5 / (1 # 2))))%nat)).
Proof.
  apply (wait_for_dom_stability_outcomes
           scenario_page (1 # 2) 3 5 initial_world).
  reflexivity.
Defined.

(** X12.  With a positive interval and a timeout that is not negative, the
    detector sleeps the interval a number of times, and the time slept adds
    up to the timeout at most. *)
Theorem wait_for_dom_stability_sleeps_within_timeout
    (page : nat -> list N) (check_interval : Q) (stable_iterations : Z)
    (timeout : Q) (w : World) :
  (0 < check_interval)%Q ->
  (0 <= timeout)%Q ->
  exists k : nat,
    slept (snd (wait_for_dom_stability page check_interval stable_iterations
                  timeout w))
    = slept w ++ repeat check_interval k /\
    (inject_Z (Z.of_nat k) * check_interval <= timeout)%Q.
Proof.
  intros Hpos Htime.
  assert (Hne : ~ (check_interval == 0)%Q).
  { intros E. rewrite E in Hpos. exact (Qlt_irrefl 0 Hpos). }
  assert (Hbound : forall k : nat,
            Z.of_nat k <= Qfloor (timeout / check_interval) ->
            (inject_Z (Z.of_nat k) * check_interval <= timeout)%Q).
  { intros k Hk. rewrite Zle_Qle in Hk.
    assert (H1 : (inject_Z (Z.of_nat k) <= timeout / check_interval)%Q).
    { eapply Qle_trans; [exact Hk|apply Qfloor_le]. }
    apply (Qmult_le_compat_r _ _ check_interval) in H1;
      [|apply Qlt_le_weak; exact Hpos].
    assert (E : (timeout / check_interval * check_interval == timeout)%Q)
      by (field; exact Hne).
    rewrite E in H1. exact H1. }
  assert (Hfl : 0 <= Qfloor (timeout / check_interval)).
  { assert (H0 : (0 <= timeout / check_interval)%Q).
    { apply Qle_shift_div_l; [exact Hpos|]. rewrite Qmult_0_l. exact Htime. }
    apply Qfloor_resp_le in H0. change 0%Q with (inject_Z 0) in H0.
    rewrite Qfloor_Z in H0. exact H0. }
  rewrite wait_for_dom_stability_run by assumption. cbn zeta.
  destruct (settle_after (sample page w) stable_iterations _ 0 (-1) 0)
    as [j|] eqn:E.
  - apply settle_after_gt in E. exists (j - 1)%nat. cbn [snd slept].
    split; [reflexivity|]. apply Hbound. lia.
  - eexists. cbn [snd slept]. split; [reflexivity|]. apply Hbound. lia.
Qed.

(** The defaults of the script: at most five seconds of sleep. *)
Lemma wait_for_dom_stability_sleeps_within_timeout_witness :
  exists k : nat,
    slept (snd (wait_for_dom_stability scenario_page (1 # 2) 3 5 initial_world))
    = slept initial_world ++ repeat (1 # 2) k /\
    (inject_Z (Z.of_nat k) * (1 # 2) <= 5)%Q.
Proof.
  apply (wait_for_dom_stability_sleeps_within_timeout
           scenario_page (1 # 2) 3 5 initial_world).
  - reflexivity.
  - vm_compute. discriminate.
Defined.

(* --------------------------------------------------------------------- *)
(** ** [main]: reading the fenced block out of the response *)
(* --------------------------------------------------------------------- *)

Lemma starts_with_extend (p x y : list N) :
  starts_with p x = true -> starts_with p (x ++ y) = true.
Proof.
  intros H. destruct (starts_with_app _ _ H) as [t ->].
  rewrite <- app_assoc. apply starts_with_self.
Qed.

Lemma drop_pattern (p s : list N) : drop (length p) (p ++ s) = s.
Proof. induction p as [|c p IH]; [reflexivity|exact IH]. Qed.

Lemma starts_with_drop (p s : list N) :
  starts_with p s = true -> s = p ++ drop (length p) s.
Proof.
  intros H. destruct (starts_with_app _ _ H) as [t ->].
  rewrite drop_pattern. reflexivity.
Qed.

(** What [find_split] returns is a split of the text around the pattern. *)
Lemma find_split_sound (pat : list N) :
  forall s before after,
    find_split pat s = Some (before, after) -> s = before ++ pat ++ after.
Proof.
  induction s as [|c s IH]; intros b a; cbn [find_split].
  - destruct (starts_with pat []) eqn:E; [|discriminate].
    intros [= <- <-]. exact (starts_with_drop _ _ E).
  - destruct (starts_with pat (c :: s)) eqn:E.
    + intros [= <- <-]. exact (starts_with_drop _ _ E).
    + destruct (find_split pat s) as [[b' a']|] eqn:E'; [|discriminate].
      intros [= <- <-]. rewrite (IH b' a' eq_refl). reflexivity.
Qed.

(** The split is at the leftmost occurrence: the text before it holds
    none. *)
Lemma find_split_leftmost (p0 : N) (pat : list N) :
  forall s before after,
    find_split (p0 :: pat) s = Some (before, after) ->
    find_split (p0 :: pat) before = None.
Proof.
  induction s as [|c s IH]; intros b a; cbn [find_split].
  - cbn [starts_with]. discriminate.
  - destruct (starts_with (p0 :: pat) (c :: s)) eqn:E.
    + intros [= <- <-]. reflexivity.
    + destruct (find_split (p0 :: pat) s) as [[b' a']|] eqn:E'; [|discriminate].
      intros [= <- <-].
      pose proof (find_split_sound _ _ _ _ E') as Hs.
      cbn [find_split].
      destruct (starts_with (p0 :: pat) (c :: b')) eqn:Eb.
      * apply (starts_with_extend _ _ ((p0 :: pat) ++ a')) in Eb.
        change ((c :: b') ++ (p0 :: pat) ++ a')
          with (c :: (b' ++ (p0 :: pat) ++ a')) in Eb.
        rewrite <- Hs, E in Eb. discriminate Eb.
      * rewrite (IH b' a' eq_refl). reflexivity.
Qed.

(** No occurrence of the pattern starts before the split. *)
Lemma find_split_minimal (pat : list N) :
  forall s before after,
    find_split pat s = Some (before, after) ->
    forall before' after',
      s = before' ++ pat ++ after' -> (length before <= length before')%nat.
Proof.
  induction s as [|c s IH]; intros b a; cbn [find_split].
  - destruct (starts_with pat []); [|discriminate].
    intros [= <- <-] b' a' _. cbn [length]. lia.
  - destruct (starts_with pat (c :: s)) eqn:E.
    + intros [= <- <-] b' a' _. cbn [length]. lia.
    + destruct (find_split pat s) as [[b0 a0]|] eqn:E'; [|discriminate].
      intros [= <- <-] b' a' Hs. destruct b' as [|c' b'].
      * rewrite app_nil_l in Hs. rewrite Hs, starts_with_self in E.
        discriminate E.
      * injection Hs as _ Hs. cbn [length].
        pose proof (IH b0 a0 eq_refl b' a' Hs). lia.
Qed.

(** A pattern is found right behind a text that lacks its first
    character. *)
Lemma find_split_after_clean (p0 : N) (pat pre rest : list N) :
  existsb (N.eqb p0) pre = false ->
  find_split (p0 :: pat) (pre ++ (p0 :: pat) ++ rest) = Some (pre, rest).
Proof.
  induction pre as [|c pre IH]; intros Hclean.
  - rewrite app_nil_l.
    assert (E : starts_with (p0 :: pat) ((p0 :: pat) ++ rest) = true)
      by apply starts_with_self.
    assert (F : find_split (p0 :: pat) ((p0 :: pat) ++ rest)
                = Some ([], drop (length (p0 :: pat)) ((p0 :: pat) ++ rest))).
    { destruct ((p0 :: pat) ++ rest) as [|x t] eqn:Ex; [discriminate Ex|].
      cbn [find_split]. rewrite E. reflexivity. }
    rewrite F, drop_pattern. reflexivity.
  - cbn [existsb] in Hclean. apply orb_false_iff in Hclean as [Hc Hpre].
    change ((c :: pre) ++ (p0 :: pat) ++ rest)
      with (c :: (pre ++ (p0 :: pat) ++ rest)).
    set (t := pre ++ (p0 :: pat) ++ rest) in *.
    cbn [find_split starts_with]. rewrite Hc.
    rewrite (IH Hpre). reflexivity.
Qed.

(** Every text that holds the pattern is split. *)
Lemma find_split_complete (pat after : list N) :
  forall before, find_split pat (before ++ pat ++ after) <> None.
Proof.
  induction before as [|c b IH].
  - rewrite app_nil_l. destruct (pat ++ after) as [|x t] eqn:E.
    + destruct pat; [|discriminate E]. cbn. discriminate.
    + cbn [find_split]. rewrite <- E, starts_with_self. discriminate.
  - change ((c :: b) ++ pat ++ after) with (c :: (b ++ pat ++ after)).
    set (t := b ++ pat ++ after) in *. cbn [find_split].
    destruct (starts_with pat (c :: t)); [discriminate|].
    destruct (find_split pat t) as [[b' a']|]; [discriminate|contradiction].
Qed.

(** A text without the pattern has no part with it. *)
Lemma find_split_none_part (pat a m b : list N) :
  find_split pat (a ++ m ++ b) = None -> find_split pat m = None.
Proof.
  intros Hnone. destruct (find_split pat m) as [[b' a']|] eqn:E; [|reflexivity].
  apply find_split_sound in E. exfalso.
  apply (find_split_complete pat (a' ++ b) (a ++ b')).
  rewrite <- Hnone. f_equal. rewrite E. rewrite <- !app_assoc. reflexivity.
Qed.

Lemma strip_is_part (s : list N) : exists a b, s = a ++ strip s ++ b.
Proof.
  destruct (lstrip_suffix s) as [a Ha].
  destruct (rstrip_prefix (lstrip s)) as [b Hb].
  exists a, b. unfold strip. rewrite <- Hb. exact Ha.
Qed.

(** X13.  What [main] takes for the JSON of a response is the text between
    the leftmost [```json] and the first [```] behind it.  The response is
    [pre], the opening fence, the block, a closing fence and [post]; no
    [```json] starts at an earlier place of the response, and no [```]
    starts at an earlier place of what follows the opening fence, so a
    report whose own text holds three backquotes is cut short there. *)
Theorem search_fenced_json_is_first_block (text group1 : list N) :
  search_fenced_json text = Some group1 ->
  exists pre post,
    text = pre ++ lit "```json" ++ group1 ++ lit "```" ++ post /\
    (forall pre' rest',
       text = pre' ++ lit "```json" ++ rest' ->
       (length pre <= length pre')%nat) /\
    (forall group1' post',
       group1 ++ lit "```" ++ post = group1' ++ lit "```" ++ post' ->
       (length group1 <= length group1')%nat) /\
    find_split (lit "```json") pre = None /\
    find_split (lit "```") group1 = None.
Proof.
  unfold search_fenced_json.
  destruct (find_split (lit "```json") text) as [[pre rest]|] eqn:E1;
    [|discriminate].
  destruct (find_split (lit "```") rest) as [[g post]|] eqn:E2;
    [|discriminate].
  intros [= <-]. exists pre, post.
  pose proof (find_split_sound _ _ _ _ E1) as H1.
  pose proof (find_split_sound _ _ _ _ E2) as H2.
  split; [rewrite H1, H2; reflexivity|].
  split; [exact (find_split_minimal _ _ _ _ E1)|].
  split; [rewrite <- H2; exact (find_split_minimal _ _ _ _ E2)|].
  split.
  - exact (find_split_leftmost 96%N (lit "``json") _ _ _ E1).
  - exact (find_split_leftmost 96%N (lit "``") _ _ _ E2).
Qed.

(** The response whose block is no JSON. *)
Lemma search_fenced_json_is_first_block_witness :
  exists pre post,
    malformed_text
    = pre ++ lit "```json" ++ lit " {oops " ++ lit "```" ++ post /\
    (forall pre' rest',
       malformed_text = pre' ++ lit "```json" ++ rest' ->
       (length pre <= length pre')%nat) /\
    (forall group1' post',
       lit " {oops " ++ lit "```" ++ post = group1' ++ lit "```" ++ post' ->
       (length (lit " {oops ") <= length group1')%nat) /\
    find_split (lit "```json") pre = None /\
    find_split (lit "```") (lit " {oops ") = None.
Proof.
  apply (search_fenced_json_is_first_block malformed_text (lit " {oops ")).
  vm_compute. reflexivity.
Defined.

(** X14.  A response made of prose without a backquote, a [```json] fence,
    a block without a backquote, a closing fence and anything else yields
    exactly the block. *)
Theorem search_fenced_json_finds_clean_block (pre body post : list N) :
  existsb (N.eqb 96) pre = false ->
  existsb (N.eqb 96) body = false ->
  search_fenced_json (pre ++ lit "```json" ++ body ++ lit "```" ++ post)
  = Some body.
Proof.
  intros Hpre Hbody. unfold search_fenced_json.
  change (lit "```json") with (96%N :: lit "``json").
  rewrite (find_split_after_clean 96%N (lit "``json") pre _ Hpre).
  change (lit "```") with (96%N :: lit "``").
  rewrite (find_split_after_clean 96%N (lit "``") body _ Hbody).
  reflexivity.
Qed.

(** The response that holds [complete_report]. *)
Lemma search_fenced_json_finds_clean_block_witness :
  search_fenced_json
    ((lit "Here is the analysis." ++ [10%N]) ++ lit "```json"
     ++ ([10%N] ++ complete_report ++ [10%N]) ++ lit "```"
     ++ ([10%N] ++ lit "Let me know if you need more."))
  = Some ([10%N] ++ complete_report ++ [10%N]).
Proof.
  apply (search_fenced_json_finds_clean_block
           (lit "Here is the analysis." ++ [10%N])
           ([10%N] ++ complete_report ++ [10%N])
           ([10%N] ++ lit "Let me know if you need more.")).
  - vm_compute. reflexivity.
  - vm_compute. reflexivity.
Defined.

(* --------------------------------------------------------------------- *)
(** ** [main]: what a run does to the world *)
(* --------------------------------------------------------------------- *)

(** Handling the response leaves directories, page and clock alone, and
    writes either nothing or the stripped block to the report file. *)
Lemma main_report_frame (C : Collaborators) (argv : list (list N))
    (blocks : list TextBlock) (w : World) :
  exists r w',
    main_report C argv blocks w = (r, w') /\
    dirs w' = dirs w /\ page_calls w' = page_calls w /\ slept w' = slept w /\
    (files w' = files w \/
     exists group1,
       search_fenced_json (join [10%N] (map text blocks)) = Some group1 /\
       r = Returned tt /\
       files w'
       = <[ report_path (report_file_name argv) := strip group1 ]> (files w)).
Proof.
  destruct blocks as [|b bs].
  { rewrite main_report_empty. eexists; eexists. split; [reflexivity|]. auto. }
  destruct (search_fenced_json (join [10%N] (map text (b :: bs))))
    as [group1|] eqn:Hsearch.
  - destruct (json_loads C (strip group1)) as [data|] eqn:Hloads.
    + rewrite (main_report_parsed C argv b bs w group1 data Hsearch Hloads).
      destruct (decide (selectors_dir (report_file_name argv) ∈ dirs w))
        as [Hdir|Hdir].
      * rewrite open_write_report by exact Hdir.
        eexists; eexists. split; [reflexivity|]. cbn [dirs files page_calls slept].
        repeat split. right. exists group1. auto.
      * match goal with
        | |- context [open_write _ ?c ?w0] =>
            destruct (open_write_report_absent (report_file_name argv) c w0
                        Hdir) as [e ->]
        end.
        eexists; eexists. split; [reflexivity|]. auto.
    + rewrite (main_report_decode_error C argv b bs w group1 Hsearch Hloads).
      eexists; eexists. split; [reflexivity|]. auto.
  - rewrite (main_report_no_fence C argv b bs w Hsearch).
    eexists; eexists. split; [reflexivity|]. auto.
Qed.

(** The browser session with the defaults of [main]: the detector takes
    four to ten samples, and the markup is read once more. *)
Lemma main_browse_calls (C : Collaborators) (target_url : list N)
    (page : nat -> list N) (w : World) :
  exists cleaned_html w1,
    main_browse C target_url page w = (Returned cleaned_html, w1) /\
    dirs w1 = dirs w /\ files w1 = files w /\
    (page_calls w + 5 <= page_calls w1 <= page_calls w + 11)%nat.
Proof.
  unfold main_browse. unfold bind at 1, print. unfold bind at 1.
  rewrite wait_for_dom_stability_run by reflexivity. cbv zeta.
  cbn [stdout dirs files page_calls slept].
  change (Z.to_nat (Qfloor (5 / (1 # 2)))) with 10%nat.
  match goal with
  | |- context [settle_after ?s 3 10 0 (-1) 0] =>
      pose proof (settle_after_spec s 3 (fun j => Nat2Z.is_nonneg _)
                    10 0 (-1) 0) as Hspec;
      destruct (settle_after s 3 10 0 (-1) 0) as [j|]
  end.
  - destruct Hspec as (i & -> & Hi & Hmax & _); [left; auto|].
    match type of Hmax with
    | _ <= streak ?s i => pose proof (streak_le s i) as Hle
    end.
    unfold bind, page_content, print, ret.
    cbn [stdout dirs files page_calls slept].
    eexists; eexists. split; [reflexivity|]. cbn [dirs files page_calls].
    repeat split; lia.
  - unfold bind, page_content, print, ret.
    cbn [stdout dirs files page_calls slept].
    eexists; eexists. split; [reflexivity|]. cbn [dirs files page_calls].
    repeat split; lia.
Qed.

(** Up to the response, whatever the file system holds: [main] removes no
    directory, writes no file, and samples the page five to eleven times. *)
Lemma main_reaches_report (C : Collaborators) (argv : list (list N))
    (page : nat -> list N) (w : World) :
  exists user_message w1,
    main C argv page w
    = main_report C argv (create_message C user_message) w1 /\
    dirs w ⊆ dirs w1 /\ files w1 = files w /\
    (page_calls w + 5 <= page_calls w1 <= page_calls w + 11)%nat.
Proof.
  unfold main. cbv zeta.
  unfold bind at 1, print. unfold bind at 1, path_exists.
  cbn [stdout dirs files page_calls slept].
  match goal with
  | |- context [if ?b then ret tt else _] => destruct b
  end.
  - unfold bind at 1, ret. unfold bind at 1.
    match goal with
    | |- context [main_browse C ?u page ?w0] =>
        destruct (main_browse_calls C u page w0)
          as (html & w1 & -> & Hd & Hf & Hc)
    end.
    eexists; exists w1. split; [reflexivity|]. rewrite Hd, Hf.
    cbn [dirs files page_calls] in *. repeat split; try lia. reflexivity.
  - unfold bind at 1, makedirs. unfold bind at 1.
    cbn [stdout dirs files page_calls slept].
    match goal with
    | |- context [main_browse C ?u page ?w0] =>
        destruct (main_browse_calls C u page w0)
          as (html & w1 & -> & Hd & Hf & Hc)
    end.
    eexists; exists w1. split; [reflexivity|]. rewrite Hd, Hf.
    cbn [dirs files page_calls] in *. repeat split; try lia.
    apply union_subseteq_r.
Qed.

(** X15.  A run of [main], whatever the command line, the page, the
    response and the file system, removes no directory and changes at most
    one file: it writes nothing, or it writes the report file
    [../selectors/<name>/pv_to_atc.json], and what it writes there has no
    white space around it and no [```] inside. *)
Theorem main_writes_the_report_at_most
    (C : Collaborators) (argv : list (list N)) (page : nat -> list N)
    (w : World) :
  dirs w ⊆ dirs (snd (main C argv page w)) /\
  (files (snd (main C argv page w)) = files w \/
   exists content,
     files (snd (main C argv page w))
     = <[ report_path (report_file_name argv) := content ]> (files w) /\
     strip content = content /\
     find_split (lit "```") content = None).
Proof.
  destruct (main_reaches_report C argv page w)
    as (msg & w1 & -> & Hd & Hf & _).
  destruct (main_report_frame C argv (create_message C msg) w1)
    as (r & w' & -> & Hd' & _ & _ & Hfiles).
  cbn [snd]. rewrite Hd'. split; [exact Hd|].
  destruct Hfiles as [Hsame|(g & Hsearch & _ & Hwritten)].
  - left. rewrite Hsame. exact Hf.
  - right. exists (strip g). rewrite Hwritten, Hf.
    split; [reflexivity|]. split; [apply strip_idempotent|].
    destruct (strip_is_part g) as (a & b & Hg).
    apply (find_split_none_part _ a (strip g) b). rewrite <- Hg.
    unfold search_fenced_json in Hsearch.
    destruct (find_split (lit "```json") _) as [[pre rest]|]; [|discriminate].
    destruct (find_split (lit "```") rest) as [[g' post]|] eqn:E2;
      [|discriminate].
    injection Hsearch as <-.
    exact (find_split_leftmost 96%N (lit "``") _ _ _ E2).
Qed.

(** X17.  When the service answers with no block at all, [main] raises
    [IndexError] at [blocks[0]] and writes no file. *)
Theorem main_empty_response_raises
    (C : Collaborators) (argv : list (list N)) (page : nat -> list N)
    (w : World) :
  (forall user_message, create_message C user_message = []) ->
  fst (main C argv page w) = Raised IndexError /\
  files (snd (main C argv page w)) = files w.
Proof.
  intros Hempty.
  destruct (main_reaches_report C argv page w)
    as (msg & w1 & -> & _ & Hf & _).
  rewrite Hempty, main_report_empty. cbn [fst snd files]. auto.
Qed.

(** A service that answers nothing. *)
Lemma main_empty_response_raises_witness :
  fst (main (canned []) [script_name; shop_url] scenario_page initial_world)
  = Raised IndexError /\
  files (snd (main (canned []) [script_name; shop_url] scenario_page
                initial_world))
  = files initial_world.
Proof.
  apply (main_empty_response_raises
           (canned []) [script_name; shop_url] scenario_page initial_world).
  intros user_message. reflexivity.
Defined.

(** The detector's count of reads depends on the world through the reads
    made before only. *)
Lemma detector_end_calls (page : nat -> list N) (w w' : World) :
  page_calls w = page_calls w' -> detector_end page w = detector_end page w'.
Proof.
  intros H. unfold detector_end.
  rewrite !wait_for_dom_stability_run by reflexivity. cbv zeta.
  unfold sample. rewrite H.
  destruct (settle_after _ _ _ _ _ _); reflexivity.
Qed.

(** The browser session: the detector takes four to ten samples, and what
    is returned is the cleaned markup of the read that follows them. *)
Lemma main_browse_run (C : Collaborators) (target_url : list N)
    (page : nat -> list N) (w : World) :
  exists w1,
    main_browse C target_url page w
    = (Returned (sanitize C (page (detector_end page w))), w1) /\
    dirs w1 = dirs w /\ files w1 = files w /\
    page_calls w1 = S (detector_end page w) /\
    (page_calls w + 4 <= detector_end page w <= page_calls w + 10)%nat.
Proof.
  unfold main_browse, detector_end. unfold bind at 1, print. unfold bind at 1.
  rewrite !wait_for_dom_stability_run by reflexivity. cbv zeta.
  unfold sample. cbn [stdout dirs files page_calls slept].
  change (Z.to_nat (Qfloor (5 / (1 # 2)))) with 10%nat.
  match goal with
  | |- context [settle_after ?s 3 10 0 (-1) 0] =>
      pose proof (settle_after_spec s 3 (fun j => Nat2Z.is_nonneg _)
                    10 0 (-1) 0) as Hspec;
      destruct (settle_after s 3 10 0 (-1) 0) as [j|]
  end.
  - destruct Hspec as (i & -> & Hi & Hmax & _); [left; auto|].
    match type of Hmax with
    | _ <= streak ?s i => pose proof (streak_le s i) as Hle
    end.
    unfold bind, page_content, print, ret.
    cbn [snd stdout dirs files page_calls slept].
    eexists. split; [reflexivity|]. cbn [dirs files page_calls].
    repeat split; lia.
  - unfold bind, page_content, print, ret.
    cbn [snd stdout dirs files page_calls slept].
    eexists. split; [reflexivity|]. cbn [dirs files page_calls].
    repeat split; lia.
Qed.

(** Up to the response: [main] sends [main_user_message], has then made no
    directory but the one named after the normalised target URL and its
    ancestors, and has written no file. *)
Lemma main_sends_user_message (C : Collaborators) (argv : list (list N))
    (page : nat -> list N) (w : World) :
  let dir := selectors_dir (normalize_file_name (argv1_or argv default_url)) in
  exists w1,
    main C argv page w
    = main_report C argv (create_message C (main_user_message C argv page w))
        w1 /\
    dirs w ⊆ dirs w1 /\
    dirs w1 ⊆ {[ dir ]} ∪ list_to_set (ancestors [] dir) ∪ dirs w /\
    files w1 = files w /\
    page_calls w1 = S (detector_end page w).
Proof.
  intros dir. unfold main, main_user_message. cbv zeta. fold dir.
  unfold bind at 1, print. unfold bind at 1, path_exists.
  cbn [stdout dirs files page_calls slept].
  match goal with
  | |- context [if ?b then ret tt else _] => destruct b
  end.
  - unfold bind at 1, ret. unfold bind at 1.
    match goal with
    | |- context [main_browse C ?u page ?w0] =>
        destruct (main_browse_run C u page w0)
          as (w1 & -> & Hd & Hf & Hc & _);
        rewrite (detector_end_calls page w0 w eq_refl) in *
    end.
    exists w1. split; [reflexivity|]. rewrite Hd, Hf, Hc.
    cbn [dirs files]. repeat split; [reflexivity|].
    apply union_subseteq_r.
  - unfold bind at 1, makedirs. unfold bind at 1.
    cbn [stdout dirs files page_calls slept].
    match goal with
    | |- context [main_browse C ?u page ?w0] =>
        destruct (main_browse_run C u page w0)
          as (w1 & -> & Hd & Hf & Hc & _);
        rewrite (detector_end_calls page w0 w eq_refl) in *
    end.
    exists w1. split; [reflexivity|]. rewrite Hd, Hf, Hc.
    cbn [dirs files]. repeat split; [|reflexivity].
    apply union_subseteq_r.
Qed.

(** With the target directory in place, [main] makes no directory. *)
Lemma main_sends_user_message_prepared (C : Collaborators)
    (argv : list (list N)) (page : nat -> list N) (w : World) :
  selectors_dir (normalize_file_name (argv1_or argv default_url)) ∈ dirs w ->
  exists w1,
    main C argv page w
    = main_report C argv (create_message C (main_user_message C argv page w))
        w1 /\
    dirs w1 = dirs w /\ files w1 = files w.
Proof.
  intros Hin. unfold main, main_user_message. cbv zeta.
  unfold bind at 1, print. unfold bind at 1, path_exists.
  cbn [stdout dirs files page_calls slept].
  rewrite bool_decide_eq_true_2 by exact Hin. rewrite orb_true_l.
  unfold bind at 1, ret. unfold bind at 1.
  match goal with
  | |- context [main_browse C ?u page ?w0] =>
      destruct (main_browse_run C u page w0)
        as (w1 & -> & Hd & Hf & _);
      rewrite (detector_end_calls page w0 w eq_refl) in *
  end.
  exists w1. split; [reflexivity|]. rewrite Hd, Hf. split; reflexivity.
Qed.

(** X19.  With a URL on the command line, the directory named after the
    normalised URL in place, and an answer of the service to the message
    [main] sends whose fenced block parses, the report is written: [main]
    returns, and the one file it changes is the report under the
    normalised URL, which holds the stripped block. *)
Lemma explicit_url_report_is_persisted (C : Collaborators)
    (script url : list N) (rest : list (list N)) (page : nat -> list N)
    (w : World) (b : TextBlock) (bs : list TextBlock) (group1 : list N)
    (data : json) :
  selectors_dir (normalize_file_name url) ∈ dirs w ->
  create_message C (main_user_message C (script :: url :: rest) page w)
  = b :: bs ->
  search_fenced_json (join [10%N] (map text (b :: bs))) = Some group1 ->
  json_loads C (strip group1) = Some data ->
  fst (main C (script :: url :: rest) page w) = Returned tt /\
  files (snd (main C (script :: url :: rest) page w))
  = <[ report_path (normalize_file_name url) := strip group1 ]> (files w).
Proof.
  intros Hdir Hresp Hsearch Hloads.
  destruct (main_sends_user_message_prepared C (script :: url :: rest) page w
              Hdir) as (w1 & Hmain & Hdirs & Hfiles).
  rewrite Hmain, Hresp.
  rewrite (main_report_parsed C _ b bs w1 group1 data Hsearch Hloads).
  rewrite report_file_name_explicit.
  rewrite open_write_report by (rewrite Hdirs; exact Hdir).
  cbn [fst snd files]. rewrite Hfiles. auto.
Qed.

(** X20.  Without a URL on the command line the report goes to a directory
    that [main] did not prepare.  When the service answers the message
    [main] sends with a fenced block that parses, and neither a directory
    nor a file stands at [../selectors/www.grass-direct.co.uk.json] (nor a
    file at a directory above it), [open] raises [FileNotFoundError] and no
    file is written. *)
Lemma default_url_report_raises (C : Collaborators) (script : list N)
    (page : nat -> list N) (w : World) (b : TextBlock) (bs : list TextBlock)
    (group1 : list N) (data : json) :
  files w !! selectors_dir (normalize_file_name default_url) = None ->
  selectors_dir default_file_name ∉ dirs w ->
  Forall (fun dir => files w !! dir = None)
    (ancestors [] (report_path default_file_name)) ->
  create_message C (main_user_message C [script] page w) = b :: bs ->
  search_fenced_json (join [10%N] (map text (b :: bs))) = Some group1 ->
  json_loads C (strip group1) = Some data ->
  fst (main C [script] page w) = Raised FileNotFoundError /\
  files (snd (main C [script] page w)) = files w.
Proof.
  intros Hfile Habsent Hclear Hresp Hsearch Hloads.
  destruct (main_sends_user_message C [script] page w)
    as (w1 & Hmain & _ & Hsub & Hfiles & _).
  rewrite Hmain, Hresp.
  rewrite (main_report_parsed C _ b bs w1 group1 data Hsearch Hloads).
  change (report_file_name [script]) with default_file_name.
  rewrite open_write_report_not_found.
  - cbn [fst snd files]. auto.
  - cbn [dirs]. intros Hin. apply Hsub in Hin.
    apply elem_of_union in Hin as [Hin|Hin]; [|exact (Habsent Hin)].
    apply elem_of_union in Hin as [Hin|Hin].
    + apply elem_of_singleton in Hin. vm_compute in Hin. discriminate Hin.
    + apply elem_of_list_to_set in Hin. vm_compute in Hin.
      repeat (apply elem_of_cons in Hin as [Hin|Hin]; [discriminate Hin|]).
      apply elem_of_nil in Hin. exact Hin.
  - cbn [files]. rewrite Hfiles. exact Hclear.
Qed.

(** The run for the shop, its directory in place, on the response that
    holds [complete_report]. *)
Lemma explicit_url_report_is_persisted_witness :
  fst (main (canned (fenced_response complete_report))
         (script_name :: shop_url :: []) scenario_page prepared_world)
  = Returned tt /\
  files (snd (main (canned (fenced_response complete_report))
                (script_name :: shop_url :: []) scenario_page prepared_world))
  = <[ report_path (normalize_file_name shop_url)
       := strip ([10%N] ++ complete_report ++ [10%N]) ]>
      (files prepared_world).
Proof.
  apply (explicit_url_report_is_persisted
           (canned (fenced_response complete_report))
           script_name shop_url [] scenario_page prepared_world
           (mkTextBlock
              (lit "Here is the analysis." ++ [10%N] ++ lit "```json"
               ++ [10%N] ++ complete_report ++ [10%N] ++ lit "```"
               ++ [10%N] ++ lit "Let me know if you need more.")
              (lit "TextBlock(...)")) []
           ([10%N] ++ complete_report ++ [10%N])
           (JObject
              [(lit "url", JString default_url);
               (lit "timestamp", JString (lit "2025-01-01T00:00:00Z"));
               (lit "status", JString (lit "success"));
               (lit "elements",
                JObject [(lit "hasCookieBanner", JBool false);
                         (lit "popups", JArray [])]);
               (lit "notes", JArray [])])).
  - vm_compute. reflexivity.
  - vm_compute. reflexivity.
  - vm_compute. reflexivity.
  - vm_compute. reflexivity.
Defined.

(** The run without an argument, on a fresh file system. *)
Lemma default_url_report_raises_witness :
  fst (main (canned (fenced_response complete_report)) [script_name]
         scenario_page initial_world)
  = Raised FileNotFoundError /\
  files (snd (main (canned (fenced_response complete_report))
                [script_name] scenario_page initial_world))
  = files initial_world.
Proof.
  apply (default_url_report_raises
           (canned (fenced_response complete_report))
           script_name scenario_page initial_world
           (mkTextBlock
              (lit "Here is the analysis." ++ [10%N] ++ lit "```json"
               ++ [10%N] ++ complete_report ++ [10%N] ++ lit "```"
               ++ [10%N] ++ lit "Let me know if you need more.")
              (lit "TextBlock(...)")) []
           ([10%N] ++ complete_report ++ [10%N])
           (JObject
              [(lit "url", JString default_url);
               (lit "timestamp", JString (lit "2025-01-01T00:00:00Z"));
               (lit "status", JString (lit "success"));
               (lit "elements",
                JObject [(lit "hasCookieBanner", JBool false);
                         (lit "popups", JArray [])]);
               (lit "notes", JArray [])])).
  - vm_compute. reflexivity.
  - vm_compute. discriminate.
  - vm_compute. repeat constructor.
  - vm_compute. reflexivity.
  - vm_compute. reflexivity.
  - vm_compute. reflexivity.
Defined.

(** X21.  The report file is replaced, not appended to: after two
    responses that parse, handled one after the other for the same command
    line, the file holds the second report only. *)
Theorem main_report_last_write_wins
    (C : Collaborators) (argv : list (list N))
    (b1 : TextBlock) (bs1 : list TextBlock)
    (b2 : TextBlock) (bs2 : list TextBlock) (w : World)
    (group1 group2 : list N) (data1 data2 : json) :
  search_fenced_json (join [10%N] (map text (b1 :: bs1))) = Some group1 ->
  json_loads C (strip group1) = Some data1 ->
  search_fenced_json (join [10%N] (map text (b2 :: bs2))) = Some group2 ->
  json_loads C (strip group2) = Some data2 ->
  selectors_dir (report_file_name argv) ∈ dirs w ->
  files (snd (main_report C argv (b2 :: bs2)
                (snd (main_report C argv (b1 :: bs1) w))))
  = <[ report_path (report_file_name argv) := strip group2 ]> (files w).
Proof.
  intros Hs1 Hl1 Hs2 Hl2 Hdir.
  rewrite (main_report_parsed C argv b1 bs1 w group1 data1 Hs1 Hl1).
  rewrite open_write_report by exact Hdir. cbn [snd].
  rewrite (main_report_parsed C argv b2 bs2 _ group2 data2 Hs2 Hl2).
  rewrite open_write_report by exact Hdir. cbn [snd files].
  apply insert_insert_eq.
Qed.

(** The report without [status], then the complete report. *)
Lemma main_report_last_write_wins_witness :
  files
    (snd (main_report (canned []) [script_name; shop_url]
            (fenced_response complete_report)
            (snd (main_report (canned []) [script_name; shop_url]
                    (fenced_response report_without_status)
                    prepared_world))))
  = <[ report_path (report_file_name [script_name; shop_url])
       := strip ([10%N] ++ complete_report ++ [10%N]) ]>
      (files prepared_world).
Proof.
  apply (main_report_last_write_wins
           (canned []) [script_name; shop_url]
           (mkTextBlock
              (lit "Here is the analysis." ++ [10%N] ++ lit "```json"
               ++ [10%N] ++ report_without_status ++ [10%N] ++ lit "```"
               ++ [10%N] ++ lit "Let me know if you need more.")
              (lit "TextBlock(...)")) []
           (mkTextBlock
              (lit "Here is the analysis." ++ [10%N] ++ lit "```json"
               ++ [10%N] ++ complete_report ++ [10%N] ++ lit "```"
               ++ [10%N] ++ lit "Let me know if you need more.")
              (lit "TextBlock(...)")) []
           prepared_world
           ([10%N] ++ report_without_status ++ [10%N])
           ([10%N] ++ complete_report ++ [10%N])
           (JObject
              [(lit "url", JString shop_url);
               (lit "timestamp", JString (lit "2025-01-01T00:00:00Z"));
               (lit "elements",
                JObject [(lit "hasCookieBanner", JBool false)]);
               (lit "notes", JArray [])])
           (JObject
              [(lit "url", JString default_url);
               (lit "timestamp", JString (lit "2025-01-01T00:00:00Z"));
               (lit "status", JString (lit "success"));
               (lit "elements",
                JObject [(lit "hasCookieBanner", JBool false);
                         (lit "popups", JArray [])]);
               (lit "notes", JArray [])])).
  - vm_compute. reflexivity.
  - vm_compute. reflexivity.
  - vm_compute. reflexivity.
  - vm_compute. reflexivity.
  - vm_compute. reflexivity.
Defined.

Lemma settle_after_more (s : nat -> Z) (N : Z) (n : nat) :
  forall k L C j n',
    settle_after s N n k L C = Some j -> (n <= n')%nat ->
    settle_after s N n' k L C = Some j.
Proof.
  induction n as [|n IH]; intros k L C j n'; cbn [settle_after];
    [discriminate|].
  intros H Hle. destruct n' as [|n']; [lia|]. cbn [settle_after].
  destruct (s k =? L).
  - destruct (C + 1 >=? N); [exact H|]. apply (IH _ _ _ _ _ H). lia.
  - apply (IH _ _ _ _ _ H). lia.
Qed.

(** X22.  A longer timeout does not change a verdict of stability: when
    the detector reports the page settled, it does exactly the same, sample
    for sample, under every greater timeout. *)
Theorem wait_for_dom_stability_longer_timeout
    (page : nat -> list N) (check_interval : Q) (stable_iterations : Z)
    (timeout timeout' : Q) (w : World) :
  (0 < check_interval)%Q ->
  (timeout <= timeout')%Q ->
  stdout (snd (wait_for_dom_stability page check_interval stable_iterations
                 timeout w))
  = stdout w ++ [stabilized_line] ->
  wait_for_dom_stability page check_interval stable_iterations timeout' w
  = wait_for_dom_stability page check_interval stable_iterations timeout w.
Proof.
  intros Hpos Hle.
  assert (HM : (Z.to_nat (Qfloor (timeout / check_interval))
                <= Z.to_nat (Qfloor (timeout' / check_interval)))%nat).
  { assert (H : Qfloor (timeout / check_interval)
                <= Qfloor (timeout' / check_interval)); [|lia].
    apply Qfloor_resp_le. unfold Qdiv. apply Qmult_le_compat_r; [exact Hle|].
    apply Qlt_le_weak, Qinv_lt_0_compat, Hpos. }
  rewrite !wait_for_dom_stability_run by assumption. cbn zeta.
  destruct (settle_after (sample page w) stable_iterations
              (Z.to_nat (Qfloor (timeout / check_interval))) 0 (-1) 0)
    as [j|] eqn:E.
  - intros _. rewrite (settle_after_more _ _ _ _ _ _ _ _ E HM). reflexivity.
  - cbn [snd stdout]. intros Hout. apply app_inv_head in Hout.
    vm_compute in Hout. discriminate Hout.
Qed.

(** The scenario under a timeout of five seconds and of a minute. *)
Lemma wait_for_dom_stability_longer_timeout_witness :
  wait_for_dom_stability scenario_page (1 # 2) 3 60 initial_world
  = wait_for_dom_stability scenario_page (1 # 2) 3 5 initial_world.
Proof.
  apply (wait_for_dom_stability_longer_timeout
           scenario_page (1 # 2) 3 5 60 initial_world).
  - reflexivity.
  - vm_compute. discriminate.
  - vm_compute. reflexivity.
Defined.

(** X23.  What [main] sends to the service is the line naming the target
    URL, an empty line and the cleaned markup of one read of the page: the
    read that follows the last sample of the detector, whose index is the
    number of reads on record when [wait_for_dom_stability(page, 0.5, 3,
    5.0)] is done.  The detector has then taken four to ten samples, and
    the read sent is not one of them. *)
Theorem main_sends_the_last_read
    (C : Collaborators) (argv : list (list N)) (page : nat -> list N)
    (w : World) :
  exists w1 : World,
    main C argv page w
    = main_report C argv
        (create_message C
           (lit "Here is the sanitized HTML for "
            ++ argv1_or argv default_url ++ lit ":" ++ [10%N; 10%N]
            ++ sanitize C
                 (page (page_calls
                          (snd (wait_for_dom_stability page (1 # 2) 3 5 w))))))
        w1 /\
    (page_calls w + 4
     <= page_calls (snd (wait_for_dom_stability page (1 # 2) 3 5 w))
     <= page_calls w + 10)%nat /\
    page_calls w1
    = S (page_calls (snd (wait_for_dom_stability page (1 # 2) 3 5 w))).
Proof.
  destruct (main_sends_user_message C argv page w)
    as (w1 & Hmain & _ & _ & _ & Hcalls).
  destruct (main_browse_run C [] page w) as (_ & _ & _ & _ & _ & Hbounds).
  exists w1. split; [exact Hmain|]. split; [exact Hbounds|exact Hcalls].
Qed.
